(** * FMOD-Audio-Engine: the bookkeeping layer of [AudioEngine]

    A shallow embedding of [AudioEngine.cpp] and its headers.  The engine is a
    thin control layer in front of FMOD: it owns five [std::map]s keyed by
    [std::string], three listener vectors and a mute flag, and every operation
    is a short sequence of map operations, console output and FMOD calls.

    The FMOD library itself is not part of the repository.  It is modelled as
    an arbitrary deterministic function from the calls made so far and the
    present call to the result code and the value handed back through the
    out-parameter, so every theorem below holds for every behaviour of the
    backend.  Calling a method through a null pointer is a fault that ends the
    operation; the state reached at the fault is kept.

    Three revisions of [AudioEngine.cpp] are embedded:
    - [Current]: the revision using the [SoundInfo] class with accessors;
    - [StructRev]: the revision using the [SoundInfo] struct of the header;
    - [PathRev]: the first revision, whose interface takes file paths. *)

From Stdlib Require Import ZArith NArith String Ascii List SpecFloat.
From stdpp Require Import gmap strings.

Local Open Scope string_scope.
Local Open Scope list_scope.
Local Open Scope N_scope.

(** ** Values *)

(** C++ [float]: IEEE 754 binary32.  The engine only copies, compares and
    multiplies such values. *)
Abbreviation float := spec_float.

Definition fmul : float -> float -> float := SFmul 24 128.

(** [a > b] on floats; false as soon as one side is a NaN. *)
Definition fgt (a b : float) : bool := SFltb b a.

Definition f0_0 : float := S754_zero false.
Definition f0_5 : float := S754_finite false 8388608 (-24).
Definition f1_0 : float := S754_finite false 8388608 (-23).
Definition f5000_0 : float := S754_finite false 10240000 (-11).

(** [FMOD_VECTOR]: three floats, in the order x, y, z. *)
Record FMOD_VECTOR := mkVec { vx : float; vy : float; vz : float }.

(** A pointer to an FMOD object.  [NULL] is 0. *)
Abbreviation handle := N.
Definition NULL : handle := 0.

(** [unsigned long long] arithmetic wraps at 2^64. *)
Definition wrap64 (n : N) : N := n mod 2 ^ 64.

Variant FMOD_MODE := FMOD_2D | FMOD_3D | FMOD_LOOP_NORMAL | FMOD_LOOP_OFF.

Variant FMOD_STUDIO_STOP_MODE := FMOD_STUDIO_STOP_ALLOWFADEOUT | FMOD_STUDIO_STOP_IMMEDIATE.

(** [FMOD_OK] and [FMOD_STUDIO_PLAYBACK_PLAYING] are both the first enumerator
    of their FMOD enumeration. *)
Definition FMOD_OK : Z := 0%Z.
Definition FMOD_STUDIO_PLAYBACK_PLAYING : N := 0.

(** ** The backend *)

(** The FMOD calls the engine makes, with their in-arguments.  A method of an
    FMOD object carries the object's handle first. *)
Variant Call :=
  | System_createSound (path : string) (mode : FMOD_MODE)
  | System_playSound (sound : handle) (paused : bool)
  | System_set3DListenerAttributes (listener : Z) (pos fwd upv : FMOD_VECTOR)
  | Sound_setMode (s : handle) (mode : FMOD_MODE)
  | Sound_set3DMinMaxDistance (s : handle) (dmin dmax : float)
  | Sound_getLength (s : handle)
  | Channel_set3DAttributes (c : handle) (pos vel : FMOD_VECTOR)
  | Channel_setVolume (c : handle) (v : float)
  | Channel_setReverbProperties (c : handle) (instance : Z) (wet : float)
  | Channel_setPaused (c : handle) (paused : bool)
  | Channel_stop (c : handle)
  | Channel_getDSPClock (c : handle)
  | Channel_addFadePoint (c : handle) (dspclock : N) (v : float)
  | ChannelGroup_setMute (g : handle) (mute : bool)
  | Studio_update
  | Studio_loadBankFile (path : string)
  | Studio_getEvent (name : string)
  | EventDescription_createInstance (d : handle)
  | EventDescription_getParameterDescriptionCount (d : handle)
  | EventDescription_is3D (d : handle)
  | EventDescription_isOneshot (d : handle)
  | EventDescription_isValid (d : handle)
  | EventInstance_setParameterByName (i : handle) (name : string) (v : float)
  | EventInstance_start (i : handle)
  | EventInstance_stop (i : handle) (mode : FMOD_STUDIO_STOP_MODE)
  | EventInstance_setVolume (i : handle) (v : float)
  | EventInstance_getPlaybackState (i : handle).

(** What a call hands back: its [FMOD_RESULT] and the value written through
    its out-parameter (a handle, a clock, a length, a state, a flag). *)
Record Reply := mkReply { result : Z; out : N }.

(** The backend: the reply to a call, given the calls made before it, and
    [FMOD_ErrorString] of [fmod_errors.h]. *)
Record Backend := mkBackend {
  reply : list Call -> Call -> Reply;
  FMOD_ErrorString : Z -> string
}.

(** ** The engine state *)

(** What [std::cout << ...] appends. *)
Variant Token :=
  | Str (s : string)
  | Chr (c : ascii)
  | Int (n : Z)
  | Flt (f : float).

Definition nl : ascii := "010"%char.

(** The data members of [class AudioEngine].  The two system pointers are
    those of an engine on which [init()] has run, and are not null. *)
Record AudioEngine := mkAudioEngine {
  sounds : gmap string handle;
  loopsPlaying : gmap string handle;
  soundBanks : gmap string handle;
  eventDescriptions : gmap string handle;
  eventInstances : gmap string handle;
  listenerpos : FMOD_VECTOR;
  forward : FMOD_VECTOR;
  up : FMOD_VECTOR;
  mastergroup : handle;
  muted : bool
}.

(** The engine together with what surrounds it: the console and the calls
    the backend has received, oldest first. *)
Record World := mkWorld {
  engine : AudioEngine;
  cout : list Token;
  calls : list Call
}.

Definition set_sounds (m : gmap string handle) (e : AudioEngine) : AudioEngine :=
  mkAudioEngine m (loopsPlaying e) (soundBanks e) (eventDescriptions e)
    (eventInstances e) (listenerpos e) (forward e) (up e) (mastergroup e) (muted e).

Definition set_loopsPlaying (m : gmap string handle) (e : AudioEngine) : AudioEngine :=
  mkAudioEngine (sounds e) m (soundBanks e) (eventDescriptions e)
    (eventInstances e) (listenerpos e) (forward e) (up e) (mastergroup e) (muted e).

Definition set_soundBanks (m : gmap string handle) (e : AudioEngine) : AudioEngine :=
  mkAudioEngine (sounds e) (loopsPlaying e) m (eventDescriptions e)
    (eventInstances e) (listenerpos e) (forward e) (up e) (mastergroup e) (muted e).

Definition set_eventDescriptions (m : gmap string handle) (e : AudioEngine) : AudioEngine :=
  mkAudioEngine (sounds e) (loopsPlaying e) (soundBanks e) m
    (eventInstances e) (listenerpos e) (forward e) (up e) (mastergroup e) (muted e).

Definition set_eventInstances (m : gmap string handle) (e : AudioEngine) : AudioEngine :=
  mkAudioEngine (sounds e) (loopsPlaying e) (soundBanks e) (eventDescriptions e)
    m (listenerpos e) (forward e) (up e) (mastergroup e) (muted e).

Definition set_listenerpos (v : FMOD_VECTOR) (e : AudioEngine) : AudioEngine :=
  mkAudioEngine (sounds e) (loopsPlaying e) (soundBanks e) (eventDescriptions e)
    (eventInstances e) v (forward e) (up e) (mastergroup e) (muted e).

Definition set_forward (v : FMOD_VECTOR) (e : AudioEngine) : AudioEngine :=
  mkAudioEngine (sounds e) (loopsPlaying e) (soundBanks e) (eventDescriptions e)
    (eventInstances e) (listenerpos e) v (up e) (mastergroup e) (muted e).

Definition set_up (v : FMOD_VECTOR) (e : AudioEngine) : AudioEngine :=
  mkAudioEngine (sounds e) (loopsPlaying e) (soundBanks e) (eventDescriptions e)
    (eventInstances e) (listenerpos e) (forward e) v (mastergroup e) (muted e).

Definition set_muted (b : bool) (e : AudioEngine) : AudioEngine :=
  mkAudioEngine (sounds e) (loopsPlaying e) (soundBanks e) (eventDescriptions e)
    (eventInstances e) (listenerpos e) (forward e) (up e) (mastergroup e) b.

(** ** Operations as state transformers that may fault *)

Variant Outcome (A : Type) :=
  | Done (a : A) (w : World)
  | Fault (w : World).
Arguments Done {A} a w.
Arguments Fault {A} w.

Definition M (A : Type) : Type := World -> Outcome A.

Definition ret {A} (a : A) : M A := fun w => Done a w.

Definition bind {A B} (m : M A) (k : A -> M B) : M B :=
  fun w => match m w with
           | Done a w' => k a w'
           | Fault w' => Fault w'
           end.

Notation "'let*' x ':=' m 'in' k" := (bind m (fun x => k))
  (at level 10, x pattern, m at level 100, k at level 200).
Notation "m ';;' k" := (bind m (fun _ => k))
  (at level 100, k at level 200, right associativity).

(** The world an operation ends in, fault or not. *)
Definition final {A} (o : Outcome A) : World :=
  match o with Done _ w => w | Fault w => w end.

Definition faulted {A} (o : Outcome A) : bool :=
  match o with Done _ _ => false | Fault _ => true end.

(** The engine's data members: read, modify. *)
Definition get {A} (f : AudioEngine -> A) : M A :=
  fun w => Done (f (engine w)) w.

Definition modify (f : AudioEngine -> AudioEngine) : M unit :=
  fun w => Done tt (mkWorld (f (engine w)) (cout w) (calls w)).

(** [std::cout << t1 << t2 << ...]. *)
Definition print (ts : list Token) : M unit :=
  fun w => Done tt (mkWorld (engine w) (cout w ++ ts) (calls w)).

(** ** [std::map] *)

(** [m.count(k)]. *)
Definition count (k : string) (m : gmap string handle) : N :=
  match m !! k with Some _ => 1 | None => 0 end.

(** [m.insert({k, v})]: keeps the element already stored under [k]. *)
Definition map_insert (k : string) (v : handle) (m : gmap string handle)
  : gmap string handle :=
  match m !! k with Some _ => m | None => <[k := v]> m end.

(** [m[k]]: the element under [k], value-initialised (null) and stored first
    when there is none.  Returns the element and the map. *)
Definition map_index (k : string) (m : gmap string handle)
  : handle * gmap string handle :=
  match m !! k with
  | Some v => (v, m)
  | None => (NULL, <[k := NULL]> m)
  end.

(** [m.erase(k)]. *)
Definition map_erase (k : string) (m : gmap string handle) : gmap string handle :=
  delete k m.

(** [sounds[k]] and the like, on a data member. *)
Definition index (proj : AudioEngine -> gmap string handle)
    (upd : gmap string handle -> AudioEngine -> AudioEngine) (k : string) : M handle :=
  fun w =>
    let (v, m) := map_index k (proj (engine w)) in
    Done v (mkWorld (upd m (engine w)) (cout w) (calls w)).

(** ** Calling FMOD *)

Section WithBackend.
Variable fmod : Backend.

(** A call on one of the two system objects. *)
Definition call (c : Call) : M Reply :=
  fun w => Done (reply fmod (calls w) c)
                (mkWorld (engine w) (cout w) (calls w ++ [c])).

(** [p->method(...)]: a fault when [p] is null. *)
Definition invoke (p : handle) (c : Call) : M Reply :=
  fun w => if N.eqb p NULL then Fault w else call c w.

(** [ERRCHECK_fn]: a line on the console unless the result is [FMOD_OK]. *)
Definition ERRCHECK_fn (r : Z) (line : Z) : M unit :=
  if Z.eqb r FMOD_OK then ret tt
  else print [Str "FMOD ERROR: AudioEngine.cpp [Line "; Int line; Str "] ";
              Int r; Str "  - "; Str (FMOD_ErrorString fmod r); Chr nl].

(** [ERRCHECK(call)]: the call is made, its result goes to [ERRCHECK_fn] with
    [__LINE__], the line of the statement in that revision's
    [AudioEngine.cpp], and control goes on whatever the result.  Yields the
    out-parameter of the call. *)
Definition ERRCHECK (line : Z) (m : M Reply) : M N :=
  let* r := m in
  ERRCHECK_fn (result r) line;;
  ret (out r).

End WithBackend.

(** A string literal that ends in a newline. *)
Definition with_nl (s : string) : string := String.append s (String nl "").

(** A range-based [for] over a vector, in order. *)
Fixpoint for_each {A} (l : list A) (body : A -> M unit) : M unit :=
  match l with
  | [] => ret tt
  | a :: l' => body a;; for_each l' body
  end.

(** ** The current revision of [AudioEngine.cpp] *)

Module Current.

(** Modelled from the spec: the [SoundInfo] class of [SoundInfo.h], which is
    not among the sources.  It is a plain value: the identity used as cache
    key, the source path, the loop and 3D policy, the loaded flag, the
    position, the last target volume and the reverb amount, each read by
    the accessor of the same name. *)
Record SoundInfo := mkSoundInfo {
  getUniqueID : string;
  getFilePath : string;
  isLoop : bool;
  is3D : bool;
  isLoaded : bool;
  getX : float;
  getY : float;
  getZ : float;
  getVolume : float;
  getReverbAmount : float
}.

Definition setVolume (v : float) (s : SoundInfo) : SoundInfo :=
  mkSoundInfo (getUniqueID s) (getFilePath s) (isLoop s) (is3D s) (isLoaded s)
    (getX s) (getY s) (getZ s) v (getReverbAmount s).

Definition setLoaded (b : bool) (s : SoundInfo) : SoundInfo :=
  mkSoundInfo (getUniqueID s) (getFilePath s) (isLoop s) (is3D s) b
    (getX s) (getY s) (getZ s) (getVolume s) (getReverbAmount s).

Definition SOUND_LOADED : bool := true.

Definition DISTANCEFACTOR : float := f1_0.

Section Operations.
Variable fmod : Backend.

Definition update : M unit :=
  ERRCHECK fmod 28 (call fmod Studio_update);; ret tt.

Definition soundLoaded (soundInfo : SoundInfo) (e : AudioEngine) : bool :=
  N.ltb 0 (count (getUniqueID soundInfo) (sounds e)).

Definition soundIsPlaying (soundInfo : SoundInfo) (e : AudioEngine) : bool :=
  isLoop soundInfo && negb (N.eqb (count (getUniqueID soundInfo) (loopsPlaying e)) 0).

Definition set3dChannelPosition (soundInfo : SoundInfo) (channel : handle) : M unit :=
  let position := mkVec (fmul (getX soundInfo) DISTANCEFACTOR)
                        (fmul (getY soundInfo) DISTANCEFACTOR)
                        (fmul (getZ soundInfo) DISTANCEFACTOR) in
  let velocity := mkVec f0_0 f0_0 f0_0 in
  ERRCHECK fmod 220 (invoke fmod channel (Channel_set3DAttributes channel position velocity));;
  ret tt.

(** [soundInfo] is passed by value: the flag set at the end is set on the
    callee's copy. *)
Definition loadSound (soundInfo : SoundInfo) : M unit :=
  if negb (isLoaded soundInfo) then
    print [Str "Audio Engine: Loading Sound from file ";
           Str (getFilePath soundInfo); Chr nl];;
    let* sound := ERRCHECK fmod 35
      (call fmod (System_createSound (getFilePath soundInfo)
                    (if is3D soundInfo then FMOD_3D else FMOD_2D))) in
    ERRCHECK fmod 36
      (invoke fmod sound
         (Sound_setMode sound
            (if isLoop soundInfo then FMOD_LOOP_NORMAL else FMOD_LOOP_OFF)));;
    ERRCHECK fmod 37
      (invoke fmod sound
         (Sound_set3DMinMaxDistance sound (fmul f0_5 DISTANCEFACTOR)
            (fmul f5000_0 DISTANCEFACTOR)));;
    modify (fun e => set_sounds (map_insert (getUniqueID soundInfo) sound (sounds e)) e);;
    let* s := index sounds set_sounds (getUniqueID soundInfo) in
    ERRCHECK fmod 40 (invoke fmod s (Sound_getLength s));;
    let soundInfo := setLoaded SOUND_LOADED soundInfo in
    ret tt
  else
    print [Str (with_nl "Audio Engine: Sound File was already loaded!")].

Definition playSound (soundInfo : SoundInfo) : M unit :=
  if negb (isLoaded soundInfo) then
    let* s := index sounds set_sounds (getUniqueID soundInfo) in
    let* channel := ERRCHECK fmod 53 (call fmod (System_playSound s true)) in
    (if is3D soundInfo then set3dChannelPosition soundInfo channel else ret tt);;
    invoke fmod channel (Channel_setVolume channel (getVolume soundInfo));;
    (if isLoop soundInfo
     then modify (fun e => set_loopsPlaying
                    (map_insert (getUniqueID soundInfo) channel (loopsPlaying e)) e)
     else ret tt);;
    ERRCHECK fmod 64
      (invoke fmod channel
         (Channel_setReverbProperties channel 0 (getReverbAmount soundInfo)));;
    ERRCHECK fmod 67 (invoke fmod channel (Channel_setPaused channel false));;
    ret tt
  else
    print [Str "Audio Engine: Can't play, sound was not loaded yet from ";
           Str (getFilePath soundInfo); Chr nl].

Definition stopSound (soundInfo : SoundInfo) : M unit :=
  let* playing := get (soundIsPlaying soundInfo) in
  if playing then
    let* channel := index loopsPlaying set_loopsPlaying (getUniqueID soundInfo) in
    ERRCHECK fmod 77 (invoke fmod channel (Channel_stop channel));;
    modify (fun e => set_loopsPlaying
              (map_erase (getUniqueID soundInfo) (loopsPlaying e)) e)
  else
    print [Str (with_nl "Audio Engine: Can't stop a looping sound that's not playing!")].

(** [soundInfo] is passed by reference: the result is the caller's
    descriptor after the call.  [fadeSampleLength] is an [unsigned int]. *)
Definition updateSoundLoopVolume (soundInfo : SoundInfo) (newVolume : float)
    (fadeSampleLength : N) : M SoundInfo :=
  let* playing := get (soundIsPlaying soundInfo) in
  if playing then
    let* channel := index loopsPlaying set_loopsPlaying (getUniqueID soundInfo) in
    (if N.leb fadeSampleLength 64 then
       ERRCHECK fmod 88 (invoke fmod channel (Channel_setVolume channel newVolume));;
       ret tt
     else
       let fadeUp := fgt newVolume (getVolume soundInfo) in
       let* clock := ERRCHECK fmod 93 (invoke fmod channel (Channel_getDSPClock channel)) in
       let parentclock := wrap64 clock in
       let targetFadeVol := if fadeUp then f1_0 else newVolume in
       (if fadeUp
        then ERRCHECK fmod 97 (invoke fmod channel (Channel_setVolume channel newVolume));;
             ret tt
        else ret tt);;
       ERRCHECK fmod 99
         (invoke fmod channel
            (Channel_addFadePoint channel parentclock (getVolume soundInfo)));;
       ERRCHECK fmod 100
         (invoke fmod channel
            (Channel_addFadePoint channel (wrap64 (parentclock + fadeSampleLength))
               targetFadeVol));;
       ret tt);;
    ret (setVolume newVolume soundInfo)
  else
    print [Str (with_nl "AudioEngine: Can't update sound loop volume! (It isn't playing or might not be loaded)")];;
    ret soundInfo.

Definition update3DSoundPosition (soundInfo : SoundInfo) : M unit :=
  let* playing := get (soundIsPlaying soundInfo) in
  if playing then
    let* channel := index loopsPlaying set_loopsPlaying (getUniqueID soundInfo) in
    set3dChannelPosition soundInfo channel
  else
    print [Str (with_nl "Audio Engine: Can't update sound position!")].

(** The second statement of the body, [forward { forwardX, forwardY,
    forwardZ };], has no assignment operator: the braces build a vector
    and nothing is stored into the data member. *)
Definition set3DListenerPosition (posX posY posZ forwardX forwardY forwardZ
    upX upY upZ : float) : M unit :=
  modify (set_listenerpos (mkVec posX posY posZ));;
  let _ := mkVec forwardX forwardY forwardZ in
  modify (set_up (mkVec upX upY upZ));;
  let* p := get listenerpos in
  let* f := get forward in
  let* u := get up in
  ERRCHECK fmod 128 (call fmod (System_set3DListenerAttributes 0 p f u));;
  ret tt.

Definition getSoundLengthInMS (soundInfo : SoundInfo) : M N :=
  let* present := get (fun e => negb (N.eqb (count (getUniqueID soundInfo) (sounds e)) 0)) in
  if present then
    let* s := index sounds set_sounds (getUniqueID soundInfo) in
    let* length := ERRCHECK fmod 134 (invoke fmod s (Sound_getLength s)) in
    ret (length mod 2 ^ 32)
  else ret 0.

Definition loadFMODStudioBank (filepath : string) : M unit :=
  print [Str "Audio Engine: Loading FMOD Studio Sound Bank "; Str filepath; Chr nl];;
  let* bank := ERRCHECK fmod 141 (call fmod (Studio_loadBankFile filepath)) in
  modify (fun e => set_soundBanks (map_insert filepath bank (soundBanks e)) e).

Definition loadFMODStudioEvent (eventName : string)
    (paramsValues : list (string * float)) : M unit :=
  print [Str "AudioEngine: Loading FMOD Studio Event "; Str eventName; Chr nl];;
  let* eventDescription := ERRCHECK fmod 148 (call fmod (Studio_getEvent eventName)) in
  let* eventInstance := ERRCHECK fmod 151
    (invoke fmod eventDescription (EventDescription_createInstance eventDescription)) in
  for_each paramsValues (fun parVal =>
    print [Str "AudioEngine: Setting Event Instance Parameter "; Str (fst parVal);
           Str "to value: "; Flt (snd parVal); Chr nl];;
    ERRCHECK fmod 155
      (invoke fmod eventInstance
         (EventInstance_setParameterByName eventInstance (fst parVal) (snd parVal)));;
    ret tt);;
  modify (fun e => set_eventInstances
            (map_insert eventName eventInstance (eventInstances e)) e);;
  modify (fun e => set_eventDescriptions
            (map_insert eventName eventDescription (eventDescriptions e)) e).

Definition setFMODEventParamValue (eventName parameterName : string) (value : float)
  : M unit :=
  let* n := get (fun e => count eventName (eventInstances e)) in
  if N.ltb 0 n then
    let* i := index eventInstances set_eventInstances eventName in
    ERRCHECK fmod 163
      (invoke fmod i (EventInstance_setParameterByName i parameterName value));;
    ret tt
  else
    print [Str "AudioEngine: Event "; Str eventName;
           Str (with_nl " was not in event instance cache, can't set param ")].

(** [instanceIndex] is not used by the body. *)
Definition playEvent (eventName : string) (instanceIndex : Z) : M unit :=
  let* eventInstance := index eventInstances set_eventInstances eventName in
  let* n := get (fun e => count eventName (eventInstances e)) in
  if N.ltb 0 n then
    let* i := index eventInstances set_eventInstances eventName in
    ERRCHECK fmod 173 (invoke fmod i (EventInstance_start i));;
    ret tt
  else
    print [Str "AudioEngine: Event "; Str eventName;
           Str (with_nl " was not in event instance cache, cannot play ")].

Definition stopEvent (eventName : string) (instanceIndex : Z) : M unit :=
  let* n := get (fun e => count eventName (eventInstances e)) in
  if N.ltb 0 n then
    let* i := index eventInstances set_eventInstances eventName in
    ERRCHECK fmod 180
      (invoke fmod i (EventInstance_stop i FMOD_STUDIO_STOP_ALLOWFADEOUT));;
    ret tt
  else
    print [Str "AudioEngine: Event "; Str eventName;
           Str (with_nl " was not in event instance cache, cannot stop ")].

Definition setEventVolume (eventName : string) (volume0to1 : float) : M unit :=
  print [Str (with_nl "AudioEngine: Setting Event Volume")];;
  let* i := index eventInstances set_eventInstances eventName in
  ERRCHECK fmod 187 (invoke fmod i (EventInstance_setVolume i volume0to1));;
  ret tt.

Definition eventIsPlaying (eventName : string) (instance : Z) : M bool :=
  let* i := index eventInstances set_eventInstances eventName in
  let* playbackState := ERRCHECK fmod 192
    (invoke fmod i (EventInstance_getPlaybackState i)) in
  ret (N.eqb playbackState FMOD_STUDIO_PLAYBACK_PLAYING).

Definition muteAllSounds : M unit :=
  let* g := get mastergroup in
  ERRCHECK fmod 198 (invoke fmod g (ChannelGroup_setMute g true));;
  modify (set_muted true).

Definition unmuteAllSound : M unit :=
  let* g := get mastergroup in
  ERRCHECK fmod 203 (invoke fmod g (ChannelGroup_setMute g false));;
  modify (set_muted false).

Definition isMuted : M bool := get muted.

End Operations.
End Current.

(** ** The revision with the [SoundInfo] struct *)

Module StructRev.

(** [struct SoundInfo] of the header. *)
Record SoundInfo := mkSoundInfo {
  uniqueID : string;
  filePath : string;
  isLoop : bool;
  is3D : bool;
  isLoaded : bool;
  x : float;
  y : float;
  z : float
}.

Definition DISTANCEFACTOR : float := f1_0.

Section Operations.
Variable fmod : Backend.

Definition soundLoaded (soundInfo : SoundInfo) (e : AudioEngine) : bool :=
  N.ltb 0 (count (uniqueID soundInfo) (sounds e)).

Definition soundIsPlaying (soundInfo : SoundInfo) (e : AudioEngine) : bool :=
  isLoop soundInfo && negb (N.eqb (count (uniqueID soundInfo) (loopsPlaying e)) 0).

Definition set3dChannelPosition (soundInfo : SoundInfo) (channel : handle) : M unit :=
  let position := mkVec (fmul (x soundInfo) DISTANCEFACTOR)
                        (fmul (y soundInfo) DISTANCEFACTOR)
                        (fmul (z soundInfo) DISTANCEFACTOR) in
  let velocity := mkVec f0_0 f0_0 f0_0 in
  ERRCHECK fmod 149 (invoke fmod channel (Channel_set3DAttributes channel position velocity));;
  ret tt.

Definition loadSound (soundInfo : SoundInfo) : M unit :=
  let* loaded := get (soundLoaded soundInfo) in
  if negb loaded then
    print [Str "Audio Engine: Loading Sound from file "; Str (filePath soundInfo); Chr nl];;
    let* sound := ERRCHECK fmod 27
      (call fmod (System_createSound (filePath soundInfo)
                    (if is3D soundInfo then FMOD_3D else FMOD_2D))) in
    ERRCHECK fmod 28
      (invoke fmod sound
         (Sound_setMode sound
            (if isLoop soundInfo then FMOD_LOOP_NORMAL else FMOD_LOOP_OFF)));;
    ERRCHECK fmod 29
      (invoke fmod sound
         (Sound_set3DMinMaxDistance sound (fmul f0_5 DISTANCEFACTOR)
            (fmul f5000_0 DISTANCEFACTOR)));;
    modify (fun e => set_sounds (map_insert (uniqueID soundInfo) sound (sounds e)) e)
  else
    print [Str (with_nl "Audio Engine: Sound File was already loaded!")].

Definition playSound (soundInfo : SoundInfo) : M unit :=
  let* loaded := get (soundLoaded soundInfo) in
  if loaded then
    let* s := index sounds set_sounds (uniqueID soundInfo) in
    let* channel := ERRCHECK fmod 40 (call fmod (System_playSound s true)) in
    (if is3D soundInfo then set3dChannelPosition soundInfo channel else ret tt);;
    (if isLoop soundInfo
     then modify (fun e => set_loopsPlaying
                    (map_insert (uniqueID soundInfo) channel (loopsPlaying e)) e)
     else ret tt);;
    ERRCHECK fmod 49 (invoke fmod channel (Channel_setPaused channel false));;
    ret tt
  else
    print [Str "Audio Engine: Can't play, sound was not loaded yet from ";
           Str (filePath soundInfo); Chr nl].

Definition stopSound (soundInfo : SoundInfo) : M unit :=
  let* playing := get (soundIsPlaying soundInfo) in
  if playing then
    let* channel := index loopsPlaying set_loopsPlaying (uniqueID soundInfo) in
    invoke fmod channel (Channel_stop channel);;
    modify (fun e => set_loopsPlaying (map_erase (uniqueID soundInfo) (loopsPlaying e)) e)
  else
    print [Str (with_nl "Audio Engine: Can't stop a sound that's not playing!")].

Definition set3DListenerPosition (posX posY posZ forwardX forwardY forwardZ
    upX upY upZ : float) : M unit :=
  modify (set_listenerpos (mkVec posX posY posZ));;
  modify (set_forward (mkVec forwardX forwardY forwardZ));;
  modify (set_up (mkVec upX upY upZ));;
  let* p := get listenerpos in
  let* f := get forward in
  let* u := get up in
  ERRCHECK fmod 84 (call fmod (System_set3DListenerAttributes 0 p f u));;
  ret tt.

Definition printEventInfo (eventDescription : handle) : M unit :=
  let* params := ERRCHECK fmod 165
    (invoke fmod eventDescription
       (EventDescription_getParameterDescriptionCount eventDescription)) in
  let* is3D := ERRCHECK fmod 166
    (invoke fmod eventDescription (EventDescription_is3D eventDescription)) in
  let* isOneshot := ERRCHECK fmod 167
    (invoke fmod eventDescription (EventDescription_isOneshot eventDescription)) in
  let* valid := invoke fmod eventDescription (EventDescription_isValid eventDescription) in
  print [Str "FMOD EventDescription has "; Int (Z.of_N params);
         Str " parameter descriptions, ";
         Str (if N.eqb is3D 0 then " isn't " else " is "); Str " 3D, ";
         Str (if N.eqb isOneshot 0 then " isn't " else " is "); Str " oneshot, ";
         Str (if N.eqb (out valid) 0 then " isn't " else " is ");
         Str (with_nl " valid.")].

Definition loadFMODStudioEvent (eventName : string)
    (paramsValues : list (string * float)) : M unit :=
  print [Str "AudioEngine: Loading FMOD Studio Event "; Str eventName; Chr nl];;
  let* eventDescription := ERRCHECK fmod 97 (call fmod (Studio_getEvent eventName)) in
  let* eventInstance := ERRCHECK fmod 100
    (invoke fmod eventDescription (EventDescription_createInstance eventDescription)) in
  printEventInfo eventDescription;;
  for_each paramsValues (fun parVal =>
    print [Str "Setting Event Instance Parameter "; Str (fst parVal);
           Str "to value: "; Flt (snd parVal); Chr nl];;
    ERRCHECK fmod 106
      (invoke fmod eventInstance
         (EventInstance_setParameterByName eventInstance (fst parVal) (snd parVal)));;
    ret tt);;
  modify (fun e => set_eventInstances
            (map_insert eventName eventInstance (eventInstances e)) e);;
  modify (fun e => set_eventDescriptions
            (map_insert eventName eventDescription (eventDescriptions e)) e).

Definition playEvent (eventName : string) (instanceIndex : Z) : M unit :=
  print [Str "Before Playing Event, checking state of Event Description ";
         Str eventName; Chr nl];;
  let* d := index eventDescriptions set_eventDescriptions eventName in
  printEventInfo d;;
  let* eventInstance := index eventInstances set_eventInstances eventName in
  let* n := get (fun e => count eventName (eventInstances e)) in
  if N.ltb 0 n then
    print [Str "Playing Event "; Str eventName; Chr nl];;
    let* eventInstance := index eventInstances set_eventInstances eventName in
    ERRCHECK fmod 128 (invoke fmod eventInstance (EventInstance_start eventInstance));;
    ret tt
  else
    print [Str "Event "; Str eventName;
           Str (with_nl " was not in event instance cache, cannot play ")].

Definition stopEvent (eventName : string) (instanceIndex : Z) : M unit :=
  let* n := get (fun e => count eventName (eventInstances e)) in
  if N.ltb 0 n then
    let* i := index eventInstances set_eventInstances eventName in
    ERRCHECK fmod 136
      (invoke fmod i (EventInstance_stop i FMOD_STUDIO_STOP_ALLOWFADEOUT));;
    ret tt
  else
    print [Str "Event "; Str eventName;
           Str (with_nl " was not in event instance cache, cannot stop ")].

Definition update : M unit :=
  ERRCHECK fmod 20 (call fmod Studio_update);; ret tt.

Definition update3DSoundPosition (soundInfo : SoundInfo) : M unit :=
  let* playing := get (soundIsPlaying soundInfo) in
  if playing then
    let* channel := index loopsPlaying set_loopsPlaying (uniqueID soundInfo) in
    set3dChannelPosition soundInfo channel
  else
    print [Str (with_nl "Audio Engine: Can't update sound position!")].

Definition loadFMODStudioBank (filepath : string) : M unit :=
  print [Str "AudioEngine: Loading FMOD Studio Sound Bank "; Str filepath; Chr nl];;
  let* bank := ERRCHECK fmod 90 (call fmod (Studio_loadBankFile filepath)) in
  modify (fun e => set_soundBanks (map_insert filepath bank (soundBanks e)) e).

Definition setFMODEventParamValue (eventName parameterName : string) (value : float)
  : M unit :=
  let* n := get (fun e => count eventName (eventInstances e)) in
  if N.ltb 0 n then
    let* i := index eventInstances set_eventInstances eventName in
    ERRCHECK fmod 114
      (invoke fmod i (EventInstance_setParameterByName i parameterName value));;
    ret tt
  else
    print [Str "Event "; Str eventName;
           Str (with_nl " was not in event instance cache, can't set param ")].

End Operations.
End StructRev.

(** ** The first revision *)

Module PathRev.

(** This revision's header names the two sound maps [soundCache] and
    [channelMap]; they are held in the fields [sounds] and [loopsPlaying]. *)
Abbreviation soundCache := sounds.
Abbreviation channelMap := loopsPlaying.
Abbreviation set_soundCache := set_sounds.
Abbreviation set_channelMap := set_loopsPlaying.

Definition DISTANCEFACTOR : float := f1_0.

Section Operations.
Variable fmod : Backend.

Definition set3DListenerPosition (posX posY posZ forwardX forwardY forwardZ
    upX upY upZ : float) : M unit :=
  modify (set_listenerpos (mkVec posX posY posZ));;
  modify (set_forward (mkVec forwardY forwardX forwardZ));;
  modify (set_up (mkVec upY upX upZ));;
  let* p := get listenerpos in
  let* f := get forward in
  let* u := get up in
  ERRCHECK fmod 85 (call fmod (System_set3DListenerAttributes 0 p f u));;
  ret tt.

Definition update : M unit :=
  ERRCHECK fmod 17 (call fmod Studio_update);; ret tt.

Definition soundIsCached (filepath : string) (e : AudioEngine) : bool :=
  N.ltb 0 (count filepath (soundCache e)).

(** [soundCache[filepath]], without a check. *)
Definition getSound (filepath : string) : M handle :=
  index soundCache set_soundCache filepath.

Definition loadSoundFile (filepath : string) (loop : bool) : M unit :=
  let* cached := get (soundIsCached filepath) in
  if negb cached then
    print [Str "Audio Engine: Loading Sound File "; Str filepath; Str (with_nl "")];;
    let* sound := ERRCHECK fmod 24 (call fmod (System_createSound filepath FMOD_2D)) in
    ERRCHECK fmod 25
      (invoke fmod sound
         (Sound_setMode sound (if loop then FMOD_LOOP_NORMAL else FMOD_LOOP_OFF)));;
    modify (fun e => set_soundCache (map_insert filepath sound (soundCache e)) e)
  else
    print [Str (with_nl "Audio Engine: Sound File was already loaded!")].

Definition playSoundFile (filepath : string) : M unit :=
  let* cached := get (soundIsCached filepath) in
  if cached then
    let* s := getSound filepath in
    ERRCHECK fmod 36 (call fmod (System_playSound s false));;
    ret tt
  else
    print [Str (with_nl "AudioEngine: Trying to play a sound that wasn't loaded!")].

Definition load3DSoundFile (filepath : string) (loop : bool) : M unit :=
  let* cached := get (soundIsCached filepath) in
  if negb cached then
    print [Str "Loading 3D Sound File "; Str filepath; Str (with_nl "")];;
    let* sound := ERRCHECK fmod 46 (call fmod (System_createSound filepath FMOD_3D)) in
    ERRCHECK fmod 48
      (invoke fmod sound
         (Sound_set3DMinMaxDistance sound (fmul f0_5 DISTANCEFACTOR)
            (fmul f5000_0 DISTANCEFACTOR)));;
    ERRCHECK fmod 49
      (invoke fmod sound
         (Sound_setMode sound (if loop then FMOD_LOOP_NORMAL else FMOD_LOOP_OFF)));;
    modify (fun e => set_soundCache (map_insert filepath sound (soundCache e)) e)
  else
    print [Str (with_nl "AudioEngine: 3D Sound File was already loaded!")].

(** Only [x] is multiplied by the distance factor.  None of the three FMOD
    calls goes through [ERRCHECK]. *)
Definition play3DSoundFile (filepath : string) (x y z : float) : M unit :=
  let* cached := get (soundIsCached filepath) in
  if cached then
    let position := mkVec (fmul x DISTANCEFACTOR) y z in
    let velocity := mkVec f0_0 f0_0 f0_0 in
    let* s := getSound filepath in
    let* r := call fmod (System_playSound s true) in
    let channel := out r in
    invoke fmod channel (Channel_set3DAttributes channel position velocity);;
    invoke fmod channel (Channel_setPaused channel false);;
    ret tt
  else
    print [Str (with_nl "AudioEngine: Trying to play a 3DSound that wasn't loaded!")].

Definition update3DSoundPosition (filepath : string) (x y z : float) : M unit :=
  let* n := get (fun e => count filepath (channelMap e)) in
  if N.ltb 0 n then
    let* channel := index channelMap set_channelMap filepath in
    let position := mkVec (fmul x DISTANCEFACTOR) (fmul y DISTANCEFACTOR)
                          (fmul z DISTANCEFACTOR) in
    let velocity := mkVec f0_0 f0_0 f0_0 in
    ERRCHECK fmod 75
      (invoke fmod channel (Channel_set3DAttributes channel position velocity));;
    ret tt
  else
    print [Str (with_nl "AudioEngine: Trying to update 3D Sound Position for a sound that wasn't loaded!")].

End Operations.
End PathRev.

(** ** Reading the call log *)

Definition is_createSound (c : Call) : bool :=
  match c with System_createSound _ _ => true | _ => false end.

Definition is_playSound (c : Call) : bool :=
  match c with System_playSound _ _ => true | _ => false end.

Definition is_createInstance (c : Call) : bool :=
  match c with EventDescription_createInstance _ => true | _ => false end.

(** The fade points among a list of calls, as (channel, clock, volume). *)
Definition fadePoints (cs : list Call) : list (handle * N * float) :=
  flat_map (fun c => match c with
                     | Channel_addFadePoint ch t v => [(ch, t, v)]
                     | _ => []
                     end) cs.

(** The volumes set on channels among a list of calls. *)
Definition volumesSet (cs : list Call) : list (handle * float) :=
  flat_map (fun c => match c with
                     | Channel_setVolume ch v => [(ch, v)]
                     | _ => []
                     end) cs.

(** The calls an operation made, given the world it started from. *)
Definition issued {A} (w : World) (o : Outcome A) : list Call :=
  skipn (length (calls w)) (calls (final o)).

(** An operation played a sound: it ran to its end and asked the backend to
    start a channel on the way. *)
Definition played {A} (w : World) (o : Outcome A) : bool :=
  negb (faulted o) && existsb is_playSound (issued w o).

(** [w'] comes after [w] with the same engine: only the console and the call
    log have grown. *)
Definition extends (w w' : World) : Prop :=
  engine w' = engine w ∧ ∃ cs, calls w' = calls w ++ cs.

(** ** A concrete backend and a fresh engine *)

(** Every call succeeds and hands back one more than the number of calls made
    before it: handles are never null and never repeated. *)
Definition counting_backend : Backend :=
  mkBackend (fun past _ => mkReply FMOD_OK (N.of_nat (length past) + 1))
            (fun _ => "").

(** The engine as the header initialises it, with a master group. *)
Definition fresh_engine : AudioEngine :=
  mkAudioEngine ∅ ∅ ∅ ∅ ∅
    (mkVec f0_0 f0_0 (fmul (S754_finite true 8388608 (-23)) f1_0))
    (mkVec f0_0 f0_0 f1_0)
    (mkVec f0_0 f1_0 f0_0)
    1 false.

Definition fresh_world : World := mkWorld fresh_engine [] [].

(** ** Scenarios *)

(** A looping 2D sound and a one-shot 3D sound, as a caller constructs them:
    not marked loaded, volume 1. *)
Definition ambient : Current.SoundInfo :=
  Current.mkSoundInfo "ambient.ogg" "ambient.ogg" true false false
    f0_0 f0_0 f0_0 f1_0 f0_0.

Definition explosion : Current.SoundInfo :=
  Current.mkSoundInfo "explosion.wav" "explosion.wav" false true false
    f0_0 f0_0 f0_0 f1_0 f0_0.

Definition ambient_struct : StructRev.SoundInfo :=
  StructRev.mkSoundInfo "ambient.ogg" "ambient.ogg" true false false f0_0 f0_0 f0_0.

(** The current engine after [loadSound(ambient)], and after
    [playSound(ambient)] on top of it. *)
Definition loaded_world : World :=
  final (Current.loadSound counting_backend ambient fresh_world).

Definition playing_world : World :=
  final (Current.playSound counting_backend ambient loaded_world).

(** The same for the struct revision. *)
Definition loaded_world_struct : World :=
  final (StructRev.loadSound counting_backend ambient_struct fresh_world).

Definition playing_world_struct : World :=
  final (StructRev.playSound counting_backend ambient_struct loaded_world_struct).

(** The current engine after [loadFMODStudioEvent("Explosion")]. *)
Definition event_world : World :=
  final (Current.loadFMODStudioEvent counting_backend "Explosion" [] fresh_world).

(** A backend that fails to start channels: [System::playSound] hands back
    an error and a null channel; every other call is answered as by
    [counting_backend]. *)
Definition no_channel_backend : Backend :=
  mkBackend (fun past c =>
               match c with
               | System_playSound _ _ => mkReply 1%Z NULL
               | _ => mkReply FMOD_OK (N.of_nat (length past) + 1)
               end)
            (fun _ => "").

(** A backend that resolves no event: [getEvent] hands back an error and a
    null description; every other call is answered as by [counting_backend]. *)
Definition no_event_backend : Backend :=
  mkBackend (fun past c =>
               match c with
               | Studio_getEvent _ => mkReply 1%Z NULL
               | _ => mkReply FMOD_OK (N.of_nat (length past) + 1)
               end)
            (fun _ => "").

(** A one-shot 3D sound at (0.5, 1, 5000) for the struct revision. *)
Definition explosion_struct : StructRev.SoundInfo :=
  StructRev.mkSoundInfo "explosion.wav" "explosion.wav" false true false
    f0_5 f1_0 f5000_0.

(** The first revision's engine after [loadSoundFile("ambient.ogg", true)]. *)
Definition loaded_world_path : World :=
  final (PathRev.loadSoundFile counting_backend "ambient.ogg" true fresh_world).

(** Two parameters for the event ["Explosion"]. *)
Definition explosion_params : list (string * float) :=
  [("Size", f0_5); ("Distance", f1_0)].

(** Two backends that hand back the same values through their
    out-parameters, whatever result codes they return. *)
Definition same_outs (f1 f2 : Backend) : Prop :=
  ∀ past c, out (reply f1 past c) = out (reply f2 past c).

(** A backend that hands back what [counting_backend] does, with an error
    code on every call. *)
Definition failing_backend : Backend :=
  mkBackend (fun past _ => mkReply 1%Z (N.of_nat (length past) + 1))
            (fun _ => "error").

(** Every channel recorded in [loopsPlaying] is a live one. *)
Definition live_channels (e : AudioEngine) : Prop :=
  ∀ k ch, loopsPlaying e !! k = Some ch → ch ≠ NULL.

(** Every sound in the cache of [e] is in the cache of [e'], under the same
    id and with the same handle. *)
Definition keeps_sounds (e e' : AudioEngine) : Prop :=
  ∀ k s, sounds e !! k = Some s → sounds e' !! k = Some s.

(** * Properties *)

(** ** [std::map] and list facts *)

Lemma count_nonzero k (m : gmap string handle) :
  negb (N.eqb (count k m) 0) = true ↔ is_Some (m !! k).
Proof.
  unfold count. destruct (m !! k); simpl; split; intros H;
    try done; try (by eexists); by destruct H.
Qed.

Lemma map_insert_present k v v' (m : gmap string handle) :
  m !! k = Some v → map_insert k v' m = m.
Proof. intros H. unfold map_insert. by rewrite H. Qed.

Lemma map_insert_lookup k v (m : gmap string handle) :
  is_Some (map_insert k v m !! k).
Proof.
  unfold map_insert. destruct (m !! k) eqn:E.
  - rewrite E. by eexists.
  - rewrite lookup_insert_eq. by eexists.
Qed.

Lemma map_index_present k v (m : gmap string handle) :
  m !! k = Some v → map_index k m = (v, m).
Proof. intros H. unfold map_index. by rewrite H. Qed.

Lemma map_index_absent k (m : gmap string handle) :
  m !! k = None → map_index k m = (NULL, <[k := NULL]> m).
Proof. intros H. unfold map_index. by rewrite H. Qed.

Lemma set_loopsPlaying_same e : set_loopsPlaying (loopsPlaying e) e = e.
Proof. by destruct e. Qed.

Lemma set_eventInstances_same e : set_eventInstances (eventInstances e) e = e.
Proof. by destruct e. Qed.

Lemma set_sounds_id e : set_sounds (sounds e) e = e.
Proof. by destruct e. Qed.

Lemma world_eta w : mkWorld (engine w) (cout w) (calls w) = w.
Proof. by destruct w. Qed.

Lemma skipn_length_app {A} (l l' : list A) : skipn (length l) (l ++ l') = l'.
Proof. induction l; simpl; auto. Qed.

Lemma skipn_length_self {A} (l : list A) : skipn (length l) l = [].
Proof. induction l; simpl; auto. Qed.

(** ** Running an operation *)

(** Unfold the monad and the FMOD call wrappers. *)
Ltac exec :=
  unfold ERRCHECK, ERRCHECK_fn in *;
  unfold bind, ret, get, modify, print, index, call, invoke in *;
  simpl in *.

(** Split on every result code checked and every pointer dereferenced. *)
Ltac branch :=
  repeat (simpl;
          match goal with
          | |- context [Z.eqb ?r FMOD_OK] => destruct (Z.eqb r FMOD_OK)
          | |- context [N.eqb ?p NULL] => destruct (N.eqb p NULL) eqn:?
          end).

Lemma ERRCHECK_call fmod ln c w :
  ∃ ts, ERRCHECK fmod ln (call fmod c) w =
        Done (out (reply fmod (calls w) c))
             (mkWorld (engine w) (cout w ++ ts) (calls w ++ [c])).
Proof.
  exec. destruct (Z.eqb _ _); simpl.
  - exists []. by rewrite app_nil_r.
  - eexists. reflexivity.
Qed.

Lemma ERRCHECK_invoke fmod ln p c w :
  p ≠ NULL →
  ERRCHECK fmod ln (invoke fmod p c) w = ERRCHECK fmod ln (call fmod c) w.
Proof.
  intros Hp. unfold ERRCHECK, bind, invoke.
  by destruct (N.eqb_spec p NULL).
Qed.

Lemma ERRCHECK_invoke_null fmod ln c w :
  ERRCHECK fmod ln (invoke fmod NULL c) w = Fault w.
Proof. reflexivity. Qed.

(** ** Which loops are playing *)

Lemma soundIsPlaying_iff info e :
  Current.soundIsPlaying info e = true ↔
  Current.isLoop info = true ∧ is_Some (loopsPlaying e !! Current.getUniqueID info).
Proof.
  unfold Current.soundIsPlaying. rewrite andb_true_iff.
  by rewrite count_nonzero.
Qed.

Lemma playSound_then_playing fmod info w :
  Current.isLoop info = true →
  played w (Current.playSound fmod info w) = true →
  Current.soundIsPlaying info (engine (final (Current.playSound fmod info w))) = true.
Proof.
  intros Hl.
  unfold played, issued, Current.playSound, Current.set3dChannelPosition,
    Current.soundIsPlaying.
  rewrite Hl. destruct (Current.isLoaded info); simpl.
  - rewrite skipn_length_self. by simpl.
  - exec. destruct (map_index _ _) as [s m]. simpl.
    destruct (Current.is3D info); branch; try done.
    all: intros _; apply count_nonzero, map_insert_lookup.
Qed.

Lemma stopSound_then_not_playing fmod info w :
  faulted (Current.stopSound fmod info w) = false →
  Current.soundIsPlaying info (engine (final (Current.stopSound fmod info w))) = false.
Proof.
  unfold Current.stopSound. exec.
  destruct (Current.soundIsPlaying info (engine w)) eqn:Hp; simpl; [|done].
  destruct (map_index _ _) as [ch m]. simpl.
  branch; try done.
  all: intros _; unfold Current.soundIsPlaying, count, map_erase; simpl.
  all: rewrite lookup_delete_eq; simpl; apply andb_false_r.
Qed.

(** C2: [soundIsPlaying] is true exactly when the descriptor loops and its id
    has an entry in [loopsPlaying]; hence it is true after a [playSound] of a
    looping descriptor that played, false after a [stopSound] of the
    descriptor that ran to its end, and false for every one-shot. *)
Theorem soundIsPlaying_loop_and_registered :
  (∀ info e,
     Current.soundIsPlaying info e = true ↔
     Current.isLoop info = true ∧
     is_Some (loopsPlaying e !! Current.getUniqueID info)) ∧
  (∀ fmod info w,
     Current.isLoop info = true →
     played w (Current.playSound fmod info w) = true →
     Current.soundIsPlaying info
       (engine (final (Current.playSound fmod info w))) = true) ∧
  (∀ fmod info w,
     faulted (Current.stopSound fmod info w) = false →
     Current.soundIsPlaying info
       (engine (final (Current.stopSound fmod info w))) = false) ∧
  (∀ info e, Current.isLoop info = false → Current.soundIsPlaying info e = false).
Proof.
  split; [exact soundIsPlaying_iff|].
  split; [exact playSound_then_playing|].
  split; [exact stopSound_then_not_playing|].
  intros info e H. unfold Current.soundIsPlaying. by rewrite H.
Qed.

Lemma soundIsPlaying_loop_and_registered_witness :
  Current.soundIsPlaying ambient
    (engine (final (Current.playSound counting_backend ambient loaded_world))) = true ∧
  Current.soundIsPlaying ambient
    (engine (final (Current.stopSound counting_backend ambient playing_world))) = false ∧
  Current.soundIsPlaying explosion (engine playing_world) = false.
Proof.
  destruct soundIsPlaying_loop_and_registered as (_ & Hplay & Hstop & Hshot).
  split; [apply Hplay; vm_compute; reflexivity|].
  split; [apply Hstop; vm_compute; reflexivity|].
  apply Hshot; reflexivity.
Defined.

(** ** Queries on an event name that was never loaded *)

(** The engine left behind by [eventInstances[name]] on an absent name. *)
Lemma index_absent_world name w :
  eventInstances (engine w) !! name = None →
  index eventInstances set_eventInstances name w =
    Done NULL
      (mkWorld (set_eventInstances (<[name := NULL]> (eventInstances (engine w)))
                  (engine w))
         (cout w) (calls w)).
Proof. intros H. unfold index. by rewrite (map_index_absent _ _ H). Qed.

Lemma index_present_world name i w :
  eventInstances (engine w) !! name = Some i →
  index eventInstances set_eventInstances name w = Done i w.
Proof.
  intros H. unfold index. rewrite (map_index_present _ _ _ H).
  by rewrite set_eventInstances_same, world_eta.
Qed.

(** On a name that is present with a live instance, the query is answered. *)
Lemma eventIsPlaying_known fmod name inst i w :
  eventInstances (engine w) !! name = Some i → i ≠ NULL →
  ∃ w', Current.eventIsPlaying fmod name inst w =
          Done (N.eqb (out (reply fmod (calls w) (EventInstance_getPlaybackState i)))
                  FMOD_STUDIO_PLAYBACK_PLAYING) w'
        ∧ engine w' = engine w.
Proof.
  intros H Hi. unfold Current.eventIsPlaying.
  unfold bind at 1. rewrite (index_present_world _ _ _ H).
  unfold bind. rewrite (ERRCHECK_invoke _ _ _ _ _ Hi).
  destruct (ERRCHECK_call fmod 192 (EventInstance_getPlaybackState i) w) as [ts ->].
  by eexists.
Qed.

(** C9: on a name absent from [eventInstances], [eventIsPlaying] and
    [setEventVolume] store a null instance under the name through the
    unguarded [operator[]] and then call a method through that null handle:
    both end in a fault, no backend call is made, and the registry they leave
    behind differs from the one they found. *)
Theorem eventIsPlaying_setEventVolume_unknown_name
    (fmod : Backend) (w : World) (name : string) (inst : Z) (v : float) :
  eventInstances (engine w) !! name = None →
  let e' := set_eventInstances (<[name := NULL]> (eventInstances (engine w)))
              (engine w) in
  Current.eventIsPlaying fmod name inst w = Fault (mkWorld e' (cout w) (calls w)) ∧
  Current.setEventVolume fmod name v w =
    Fault (mkWorld e'
             (cout w ++ [Str (with_nl "AudioEngine: Setting Event Volume")])
             (calls w)) ∧
  eventInstances e' !! name = Some NULL ∧
  eventInstances e' ≠ eventInstances (engine w).
Proof.
  intros H e'. repeat split.
  - unfold Current.eventIsPlaying. unfold bind at 1.
    by rewrite (index_absent_world _ _ H).
  - unfold Current.setEventVolume. unfold bind at 1. simpl.
    unfold bind at 1. unfold index. simpl.
    by rewrite (map_index_absent _ _ H).
  - subst e'. simpl. apply lookup_insert_eq.
  - subst e'. simpl. intros Heq.
    assert (<[name:=NULL]> (eventInstances (engine w)) !! name = Some NULL) as Hl
      by apply lookup_insert_eq.
    rewrite Heq, H in Hl. discriminate.
Qed.

Lemma eventIsPlaying_setEventVolume_unknown_name_witness :
  faulted (Current.eventIsPlaying counting_backend "Nonexistent" 0 event_world) = true ∧
  faulted (Current.setEventVolume counting_backend "Nonexistent" f0_5 event_world) = true ∧
  eventInstances
    (engine (final (Current.eventIsPlaying counting_backend "Nonexistent" 0 event_world)))
    !! "Nonexistent" = Some NULL.
Proof.
  assert (eventInstances (engine event_world) !! "Nonexistent" = None) as H
    by (vm_compute; reflexivity).
  destruct (eventIsPlaying_setEventVolume_unknown_name
              counting_backend event_world "Nonexistent" 0 f0_5 H)
    as (Hq & Hv & Hn & _).
  rewrite Hq, Hv. simpl. split; [reflexivity|]. split; [reflexivity|].
  apply lookup_insert_eq.
Defined.

(** ** Volume fades *)

Lemma fgt_irrefl v : fgt v v = false.
Proof.
  unfold fgt, SFltb, SFcompare.
  destruct v as [s|s| |s m e]; try destruct s; simpl; try reflexivity.
  all: rewrite Z.compare_refl, Pos.compare_cont_refl; reflexivity.
Qed.

Lemma wrap64_small n : n < 2 ^ 64 → wrap64 n = n.
Proof. intros H. unfold wrap64. by apply N.mod_small. Qed.

(** An operation that ends in [w'] having appended [cs] to the call log
    issued [cs]. *)
Lemma issued_done {A} (a : A) (w w' : World) (cs : list Call) :
  calls w' = calls w ++ cs → issued w (Done a w') = cs.
Proof. intros H. unfold issued. simpl. rewrite H. apply skipn_length_app. Qed.

(** What [updateSoundLoopVolume] does on a loop that is playing on a live
    channel: the descriptor it hands back, the engine it leaves and the calls
    it makes, for a short and for a long fade. *)
Lemma updateSoundLoopVolume_playing fmod w info newVolume fade ch :
  Current.isLoop info = true →
  loopsPlaying (engine w) !! Current.getUniqueID info = Some ch →
  ch ≠ NULL →
  let t0 := wrap64 (out (reply fmod (calls w) (Channel_getDSPClock ch))) in
  let fadeUp := fgt newVolume (Current.getVolume info) in
  ∃ w', Current.updateSoundLoopVolume fmod info newVolume fade w =
          Done (Current.setVolume newVolume info) w' ∧
        engine w' = engine w ∧
        calls w' = calls w ++
          if N.leb fade 64 then [Channel_setVolume ch newVolume]
          else Channel_getDSPClock ch ::
               (if fadeUp then [Channel_setVolume ch newVolume] else []) ++
               [Channel_addFadePoint ch t0 (Current.getVolume info);
                Channel_addFadePoint ch (wrap64 (t0 + fade))
                  (if fadeUp then f1_0 else newVolume)].
Proof.
  intros Hl Hch Hn t0 fadeUp. subst t0 fadeUp.
  assert (Current.soundIsPlaying info (engine w) = true) as Hp
    by (apply soundIsPlaying_iff; eauto).
  apply N.eqb_neq in Hn.
  unfold Current.updateSoundLoopVolume. exec.
  rewrite Hp, (map_index_present _ _ _ Hch), set_loopsPlaying_same. simpl.
  destruct (N.leb fade 64); [|destruct (fgt newVolume (Current.getVolume info))];
    rewrite ?Hn; branch.
  all: eexists; split; [reflexivity|]; simpl; split; [reflexivity|].
  all: rewrite <- ?app_assoc; reflexivity.
Qed.

(** C5: on a playing loop, a fade of at most 64 samples is one immediate
    [setVolume] and no fade point; a longer fade issues exactly two fade
    points, at the channel clock [t0] with the stored volume and at
    [t0 + fadeSampleLength] (in 64-bit arithmetic) with 1.0 when the new
    volume is greater than the stored one, the channel volume being set to the
    new volume first, and with the new volume otherwise; in both cases the
    descriptor's stored volume becomes the new volume. *)
Theorem updateSoundLoopVolume_fade
    (fmod : Backend) (w : World) (info : Current.SoundInfo) (newVolume : float)
    (fadeSampleLength : N) (ch : handle) :
  Current.isLoop info = true →
  loopsPlaying (engine w) !! Current.getUniqueID info = Some ch →
  ch ≠ NULL →
  let o := Current.updateSoundLoopVolume fmod info newVolume fadeSampleLength w in
  let t0 := wrap64 (out (reply fmod (calls w) (Channel_getDSPClock ch))) in
  let stored := Current.getVolume info in
  (∃ w', o = Done (Current.setVolume newVolume info) w' ∧ engine w' = engine w) ∧
  Current.getVolume (Current.setVolume newVolume info) = newVolume ∧
  (fadeSampleLength ≤ 64 →
     issued w o = [Channel_setVolume ch newVolume] ∧
     fadePoints (issued w o) = []) ∧
  (64 < fadeSampleLength →
     fadePoints (issued w o) =
       [(ch, t0, stored);
        (ch, wrap64 (t0 + fadeSampleLength),
         if fgt newVolume stored then f1_0 else newVolume)] ∧
     volumesSet (issued w o) =
       (if fgt newVolume stored then [(ch, newVolume)] else []) ∧
     (t0 + fadeSampleLength < 2 ^ 64 →
        wrap64 (t0 + fadeSampleLength) = t0 + fadeSampleLength)).
Proof.
  intros Hl Hch Hn o t0 stored.
  destruct (updateSoundLoopVolume_playing fmod w info newVolume fadeSampleLength
              ch Hl Hch Hn) as (w' & Ho & He & Hc).
  fold o in Ho. fold t0 stored in Hc.
  assert (issued w o = _) as Hi by (rewrite Ho; exact (issued_done _ _ _ _ Hc)).
  clearbody o t0 stored.
  split; [|split; [reflexivity|split]].
  - by exists w'.
  - intros Hle. apply N.leb_le in Hle. rewrite Hle in Hi.
    rewrite Hi. by split.
  - intros Hgt. apply N.leb_gt in Hgt. rewrite Hgt in Hi.
    rewrite Hi. split; [|split].
    + by destruct (fgt newVolume stored).
    + by destruct (fgt newVolume stored).
    + apply wrap64_small.
Qed.

(** C10: a long fade whose new volume is the stored volume is taken as a
    downward ramp, the test being the strict [newVolume > getVolume()]: the
    channel volume is not set, and the two fade points issued carry the same
    volume. *)
Theorem updateSoundLoopVolume_equal_volume
    (fmod : Backend) (w : World) (info : Current.SoundInfo) (newVolume : float)
    (fadeSampleLength : N) (ch : handle) :
  Current.isLoop info = true →
  loopsPlaying (engine w) !! Current.getUniqueID info = Some ch →
  ch ≠ NULL →
  64 < fadeSampleLength →
  newVolume = Current.getVolume info →
  let o := Current.updateSoundLoopVolume fmod info newVolume fadeSampleLength w in
  let t0 := wrap64 (out (reply fmod (calls w) (Channel_getDSPClock ch))) in
  fgt newVolume (Current.getVolume info) = false ∧
  issued w o =
    [Channel_getDSPClock ch;
     Channel_addFadePoint ch t0 newVolume;
     Channel_addFadePoint ch (wrap64 (t0 + fadeSampleLength)) newVolume] ∧
  volumesSet (issued w o) = [] ∧
  faulted o = false.
Proof.
  intros Hl Hch Hn Hgt -> o t0.
  destruct (updateSoundLoopVolume_playing fmod w info (Current.getVolume info)
              fadeSampleLength ch Hl Hch Hn) as (w' & Ho & He & Hc).
  fold o in Ho. fold t0 in Hc.
  assert (issued w o = _) as Hi by (rewrite Ho; exact (issued_done _ _ _ _ Hc)).
  apply N.leb_gt in Hgt. rewrite Hgt, fgt_irrefl in Hi.
  clearbody o t0. rewrite fgt_irrefl, Hi, Ho. by repeat split.
Qed.

Lemma playing_world_channel :
  loopsPlaying (engine playing_world) !! Current.getUniqueID ambient = Some 5.
Proof. vm_compute. reflexivity. Qed.

Lemma updateSoundLoopVolume_fade_witness :
  fadePoints
    (issued playing_world
       (Current.updateSoundLoopVolume counting_backend ambient f0_0 128 playing_world))
  = [(5, 9, f1_0); (5, 137, f0_0)].
Proof.
  destruct (updateSoundLoopVolume_fade counting_backend playing_world ambient f0_0
              128 5 eq_refl playing_world_channel ltac:(discriminate))
    as (_ & _ & _ & Hlong).
  destruct (Hlong eq_refl) as (Hpoints & _).
  rewrite Hpoints. vm_compute. reflexivity.
Defined.

Lemma updateSoundLoopVolume_equal_volume_witness :
  issued playing_world
    (Current.updateSoundLoopVolume counting_backend ambient f1_0 128 playing_world)
  = [Channel_getDSPClock 5; Channel_addFadePoint 5 9 f1_0;
     Channel_addFadePoint 5 137 f1_0].
Proof.
  destruct (updateSoundLoopVolume_equal_volume counting_backend playing_world ambient
              f1_0 128 5 eq_refl playing_world_channel ltac:(discriminate)
              eq_refl eq_refl)
    as (_ & Hissued & _).
  rewrite Hissued. vm_compute. reflexivity.
Defined.

(** ** Playing a loop that is already playing *)

(** Every channel the current [playSound] records is a live one: the channel
    is used before it is stored. *)
Lemma playSound_records_live_channels fmod info w :
  (∀ k ch, loopsPlaying (engine w) !! k = Some ch → ch ≠ NULL) →
  ∀ k ch, loopsPlaying (engine (final (Current.playSound fmod info w))) !! k = Some ch →
          ch ≠ NULL.
Proof.
  intros Hinv k ch.
  unfold Current.playSound, Current.set3dChannelPosition.
  destruct (Current.isLoaded info); simpl; [apply Hinv|].
  exec. destruct (map_index _ _) as [s m]. simpl.
  destruct (Current.is3D info), (Current.isLoop info); branch; try apply Hinv.
  all: unfold map_insert; destruct (loopsPlaying (engine w) !! _) eqn:E;
    simpl; try apply Hinv.
  all: destruct (decide (Current.getUniqueID info = k)) as [->|Hne];
    [rewrite lookup_insert_eq | rewrite lookup_insert_ne by done; apply Hinv].
  all: intros [= <-]; by apply N.eqb_neq.
Qed.

Lemma playSound_already_playing fmod w info ch :
  Current.isLoop info = true →
  loopsPlaying (engine w) !! Current.getUniqueID info = Some ch →
  Current.isLoaded info = false →
  let o := Current.playSound fmod info w in
  let s := fst (map_index (Current.getUniqueID info) (sounds (engine w))) in
  let channel := out (reply fmod (calls w) (System_playSound s true)) in
  (∃ rest, calls (final o) = calls w ++ System_playSound s true :: rest) ∧
  loopsPlaying (engine (final o)) = loopsPlaying (engine w) ∧
  (channel ≠ NULL →
     faulted o = false ∧ In (Channel_setPaused channel false) (calls (final o))).
Proof.
  intros Hl Hch Hld o s channel. subst o s channel.
  unfold Current.playSound, Current.set3dChannelPosition.
  rewrite Hl, Hld. exec.
  destruct (map_index _ _) as [s m]. simpl.
  destruct (Current.is3D info); branch.
  all: rewrite ?(map_insert_present _ _ _ _ Hch); simpl.
  all: split; [rewrite <- ?app_assoc; simpl; by eexists|].
  all: split; [reflexivity|].
  all: try (intros Hnull; exfalso;
            match goal with
            | H : N.eqb _ NULL = true |- _ => apply N.eqb_eq in H; by apply Hnull
            end).
  all: intros _; split; [reflexivity|].
  all: rewrite !in_app_iff; simpl; auto.
Qed.

Lemma playSound_already_playing_struct fmod w info ch :
  StructRev.isLoop info = true →
  loopsPlaying (engine w) !! StructRev.uniqueID info = Some ch →
  StructRev.soundLoaded info (engine w) = true →
  let o := StructRev.playSound fmod info w in
  let s := fst (map_index (StructRev.uniqueID info) (sounds (engine w))) in
  let channel := out (reply fmod (calls w) (System_playSound s true)) in
  (∃ rest, calls (final o) = calls w ++ System_playSound s true :: rest) ∧
  loopsPlaying (engine (final o)) = loopsPlaying (engine w) ∧
  (channel ≠ NULL →
     faulted o = false ∧ In (Channel_setPaused channel false) (calls (final o))).
Proof.
  intros Hl Hch Hld o s channel. subst o s channel.
  unfold StructRev.playSound, StructRev.set3dChannelPosition.
  exec. rewrite Hl, Hld.
  destruct (map_index _ _) as [s m]. simpl.
  destruct (StructRev.is3D info); branch.
  all: rewrite ?(map_insert_present _ _ _ _ Hch); simpl.
  all: split; [rewrite <- ?app_assoc; simpl; by eexists|].
  all: split; [reflexivity|].
  all: try (intros Hnull; exfalso;
            match goal with
            | H : N.eqb _ NULL = true |- _ => apply N.eqb_eq in H; by apply Hnull
            end).
  all: intros _; split; [reflexivity|].
  all: rewrite !in_app_iff; simpl; auto.
Qed.

Lemma issued_cons {A} (o : Outcome A) (w : World) (c : Call) (rest : list Call) :
  calls (final o) = calls w ++ c :: rest → issued w o = c :: rest.
Proof. intros H. unfold issued. rewrite H. apply skipn_length_app. Qed.

Lemma count_present k v (m : gmap string handle) : m !! k = Some v → count k m = 1.
Proof. intros H. unfold count. by rewrite H. Qed.

(** C4, as the code has it: a looping descriptor whose id already has an
    entry in [loopsPlaying], played again by a call that passes the load guard
    of [playSound], is not rejected.  The backend is asked for one more
    channel, which is un-paused when it is a live one; [loopsPlaying] is left
    as it was, [insert] keeping the channel stored first, so the id has
    exactly one entry before and after.  This holds in the current revision
    and in the struct revision. *)
Theorem playSound_on_playing_loop_starts_another_channel :
  (∀ fmod w info ch,
     Current.isLoop info = true →
     loopsPlaying (engine w) !! Current.getUniqueID info = Some ch →
     Current.isLoaded info = false →
     let o := Current.playSound fmod info w in
     let s := fst (map_index (Current.getUniqueID info) (sounds (engine w))) in
     let channel := out (reply fmod (calls w) (System_playSound s true)) in
     existsb is_playSound (issued w o) = true ∧
     loopsPlaying (engine (final o)) = loopsPlaying (engine w) ∧
     count (Current.getUniqueID info) (loopsPlaying (engine w)) = 1 ∧
     count (Current.getUniqueID info) (loopsPlaying (engine (final o))) = 1 ∧
     (channel ≠ NULL →
        faulted o = false ∧ In (Channel_setPaused channel false) (calls (final o)))) ∧
  (∀ fmod w info ch,
     StructRev.isLoop info = true →
     loopsPlaying (engine w) !! StructRev.uniqueID info = Some ch →
     StructRev.soundLoaded info (engine w) = true →
     let o := StructRev.playSound fmod info w in
     let s := fst (map_index (StructRev.uniqueID info) (sounds (engine w))) in
     let channel := out (reply fmod (calls w) (System_playSound s true)) in
     existsb is_playSound (issued w o) = true ∧
     loopsPlaying (engine (final o)) = loopsPlaying (engine w) ∧
     count (StructRev.uniqueID info) (loopsPlaying (engine w)) = 1 ∧
     count (StructRev.uniqueID info) (loopsPlaying (engine (final o))) = 1 ∧
     (channel ≠ NULL →
        faulted o = false ∧ In (Channel_setPaused channel false) (calls (final o)))).
Proof.
  split; intros fmod w info ch Hl Hch Hld o s channel.
  - destruct (playSound_already_playing fmod w info ch Hl Hch Hld)
      as ([rest Hrest] & Hsame & Hlive).
    fold o in Hrest, Hsame, Hlive. fold s in Hrest, Hlive. fold channel in Hlive.
    rewrite (issued_cons _ _ _ _ Hrest), Hsame, (count_present _ _ _ Hch).
    split; [reflexivity|]. split; [reflexivity|]. split; [reflexivity|].
    split; [reflexivity|]. exact Hlive.
  - destruct (playSound_already_playing_struct fmod w info ch Hl Hch Hld)
      as ([rest Hrest] & Hsame & Hlive).
    fold o in Hrest, Hsame, Hlive. fold s in Hrest, Hlive. fold channel in Hlive.
    rewrite (issued_cons _ _ _ _ Hrest), Hsame, (count_present _ _ _ Hch).
    split; [reflexivity|]. split; [reflexivity|]. split; [reflexivity|].
    split; [reflexivity|]. exact Hlive.
Qed.

Lemma playing_world_struct_channel :
  loopsPlaying (engine playing_world_struct) !! StructRev.uniqueID ambient_struct
  = Some 4.
Proof. vm_compute. reflexivity. Qed.

Lemma playSound_on_playing_loop_starts_another_channel_witness :
  (existsb is_playSound
     (issued playing_world (Current.playSound counting_backend ambient playing_world))
   = true ∧
   loopsPlaying
     (engine (final (Current.playSound counting_backend ambient playing_world)))
   = loopsPlaying (engine playing_world)) ∧
  (existsb is_playSound
     (issued playing_world_struct
        (StructRev.playSound counting_backend ambient_struct playing_world_struct))
   = true ∧
   loopsPlaying
     (engine (final (StructRev.playSound counting_backend ambient_struct
                       playing_world_struct)))
   = loopsPlaying (engine playing_world_struct)).
Proof.
  destruct playSound_on_playing_loop_starts_another_channel as [Hcur Hstruct].
  split.
  - destruct (Hcur counting_backend playing_world ambient 5 eq_refl
                playing_world_channel eq_refl) as (H1 & H2 & _).
    by split.
  - assert (StructRev.soundLoaded ambient_struct (engine playing_world_struct) = true)
      as Hld by (vm_compute; reflexivity).
    destruct (Hstruct counting_backend playing_world_struct ambient_struct 4 eq_refl
                playing_world_struct_channel Hld) as (H1 & H2 & _).
    by split.
Defined.

(** C4, as the claim has it, fails: there is a loop that is loaded and
    playing, on which [playSound] asks the backend for a second channel. *)
Lemma playSound_on_playing_loop_not_rejected :
  ¬ (∀ fmod w info,
       Current.soundLoaded info (engine w) = true →
       Current.isLoop info = true →
       is_Some (loopsPlaying (engine w) !! Current.getUniqueID info) →
       existsb is_playSound (issued w (Current.playSound fmod info w)) = false) ∧
  ¬ (∀ fmod w info,
       StructRev.soundLoaded info (engine w) = true →
       StructRev.isLoop info = true →
       is_Some (loopsPlaying (engine w) !! StructRev.uniqueID info) →
       existsb is_playSound (issued w (StructRev.playSound fmod info w)) = false).
Proof.
  split; intros H.
  - specialize (H counting_backend playing_world ambient).
    assert (existsb is_playSound
              (issued playing_world
                 (Current.playSound counting_backend ambient playing_world)) = true)
      as Hplayed by (vm_compute; reflexivity).
    rewrite H in Hplayed; [discriminate| vm_compute; reflexivity | reflexivity |].
    rewrite playing_world_channel. by eexists.
  - specialize (H counting_backend playing_world_struct ambient_struct).
    assert (existsb is_playSound
              (issued playing_world_struct
                 (StructRev.playSound counting_backend ambient_struct
                    playing_world_struct)) = true)
      as Hplayed by (vm_compute; reflexivity).
    rewrite H in Hplayed; [discriminate| vm_compute; reflexivity | reflexivity |].
    rewrite playing_world_struct_channel. by eexists.
Qed.

(** ** Loading an event twice *)

Lemma extends_refl w : extends w w.
Proof. split; [done|]. exists []. by rewrite app_nil_r. Qed.

Lemma extends_trans w1 w2 w3 : extends w1 w2 → extends w2 w3 → extends w1 w3.
Proof.
  intros [He1 [cs1 Hc1]] [He2 [cs2 Hc2]]. split; [congruence|].
  exists (cs1 ++ cs2). by rewrite Hc2, Hc1, app_assoc.
Qed.

Lemma for_each_extends {A} (l : list A) (body : A → M unit) :
  (∀ a w, extends w (final (body a w))) →
  ∀ w, extends w (final (for_each l body w)).
Proof.
  intros Hbody. induction l as [|a l IH]; intros w; simpl.
  - apply extends_refl.
  - unfold bind. specialize (Hbody a w).
    destruct (body a w) as [[] w'|w']; simpl in *; [|done].
    eapply extends_trans; [exact Hbody | apply IH].
Qed.

Lemma for_each_no_fault {A} (l : list A) (body : A → M unit) :
  (∀ a w, faulted (body a w) = false) →
  ∀ w, faulted (for_each l body w) = false.
Proof.
  intros Hbody. induction l as [|a l IH]; intros w; simpl; [done|].
  unfold bind. specialize (Hbody a w).
  destruct (body a w) as [[] w'|w']; simpl in *; [apply IH|done].
Qed.

(** Setting one parameter of an instance leaves the engine alone. *)
Lemma setParameter_extends fmod ln (toks : string * float → list Token) i parVal w :
  extends w
    (final ((print (toks parVal);;
             ERRCHECK fmod ln
               (invoke fmod i
                  (EventInstance_setParameterByName i (fst parVal) (snd parVal)));;
             ret tt) w)).
Proof.
  exec. branch; (split; [done|]); simpl.
  - exists []. by rewrite app_nil_r.
  - by eexists.
  - by eexists.
Qed.

Lemma setParameter_no_fault fmod ln (toks : string * float → list Token) i parVal w :
  i ≠ NULL →
  faulted ((print (toks parVal);;
            ERRCHECK fmod ln
              (invoke fmod i
                 (EventInstance_setParameterByName i (fst parVal) (snd parVal)));;
            ret tt) w) = false.
Proof. intros Hi. apply N.eqb_neq in Hi. exec. rewrite Hi. by branch. Qed.

Lemma loadFMODStudioEvent_existing fmod w name params old :
  eventInstances (engine w) !! name = Some old →
  let o := Current.loadFMODStudioEvent fmod name params w in
  let d := out (reply fmod (calls w) (Studio_getEvent name)) in
  let i := out (reply fmod (calls w ++ [Studio_getEvent name])
                  (EventDescription_createInstance d)) in
  eventInstances (engine (final o)) = eventInstances (engine w) ∧
  (d ≠ NULL →
     ∃ rest, calls (final o) =
             calls w ++ Studio_getEvent name ::
                        EventDescription_createInstance d :: rest) ∧
  (d ≠ NULL → i ≠ NULL ∨ params = [] → faulted o = false).
Proof.
  intros Hold o d i.
  assert (o = Current.loadFMODStudioEvent fmod name params w) as Ho by reflexivity.
  clearbody o. unfold Current.loadFMODStudioEvent in Ho.
  unfold bind at 1 in Ho. simpl in Ho.
  unfold bind at 1 in Ho.
  destruct (ERRCHECK_call fmod 148 (Studio_getEvent name)
              (mkWorld (engine w)
                 (cout w ++ [Str "AudioEngine: Loading FMOD Studio Event ";
                             Str name; Chr nl]) (calls w))) as [ts Hts].
  rewrite Hts in Ho. simpl in Ho. fold d in Ho.
  destruct (N.eqb_spec d NULL) as [Hd|Hd].
  { rewrite Hd in Ho. unfold bind at 1 in Ho. rewrite ERRCHECK_invoke_null in Ho.
    subst o. simpl. split; [done|]. split; intros Hn; by destruct Hn. }
  unfold bind at 1 in Ho. rewrite (ERRCHECK_invoke _ _ _ _ _ Hd) in Ho.
  match type of Ho with
  | context [ERRCHECK fmod 151 (call fmod ?c) ?w0] =>
      destruct (ERRCHECK_call fmod 151 c w0) as [ts' Hts']
  end.
  rewrite Hts' in Ho. simpl in Ho. fold i in Ho.
  unfold bind at 1 in Ho.
  match type of Ho with
  | context [for_each params ?body ?w0] =>
      pose proof (for_each_extends params body
                    (setParameter_extends fmod 155
                       (λ parVal, [Str "AudioEngine: Setting Event Instance Parameter ";
                                   Str (fst parVal); Str "to value: ";
                                   Flt (snd parVal); Chr nl]) i) w0) as Hext;
      pose proof (λ Hi, for_each_no_fault params body
                    (λ a w1, setParameter_no_fault fmod 155
                       (λ parVal, [Str "AudioEngine: Setting Event Instance Parameter ";
                                   Str (fst parVal); Str "to value: ";
                                   Flt (snd parVal); Chr nl]) i a w1 Hi) w0) as Hnf;
      assert (params = [] → faulted (for_each params body w0) = false) as Hnil
        by (by intros ->);
      destruct (for_each params body w0) as [[] w2|w2]
  end.
  all: destruct Hext as [He [cs Hc]]; simpl in *.
  - unfold bind, modify in Ho. simpl in Ho. subst o. simpl. rewrite He. simpl.
    rewrite (map_insert_present _ _ _ _ Hold).
    split; [done|]. split; [|done].
    intros _. rewrite Hc, <- !app_assoc. simpl. by eexists.
  - subst o. simpl. rewrite He. split; [done|]. split.
    + intros _. rewrite Hc, <- !app_assoc. simpl. by eexists.
    + intros _ [Hi|Hp]; [by apply Hnf | by apply Hnil].
Qed.

(** C8, as the code has it: loading an event name that already has an entry
    in [eventInstances] creates a new backend instance whenever the
    description is resolved, but does not overwrite: [insert] keeps the entry,
    the registry is left exactly as it was, the slot still holds the prior
    instance and the new instance is recorded nowhere. *)
Theorem loadFMODStudioEvent_again_keeps_prior_instance
    (fmod : Backend) (w : World) (name : string) (params : list (string * float))
    (old : handle) :
  eventInstances (engine w) !! name = Some old →
  let o := Current.loadFMODStudioEvent fmod name params w in
  let d := out (reply fmod (calls w) (Studio_getEvent name)) in
  let i := out (reply fmod (calls w ++ [Studio_getEvent name])
                  (EventDescription_createInstance d)) in
  (d ≠ NULL → existsb is_createInstance (issued w o) = true) ∧
  eventInstances (engine (final o)) = eventInstances (engine w) ∧
  eventInstances (engine (final o)) !! name = Some old ∧
  (d ≠ NULL → i ≠ NULL ∨ params = [] → faulted o = false).
Proof.
  intros Hold o d i.
  destruct (loadFMODStudioEvent_existing fmod w name params old Hold)
    as (Hsame & Hcalls & Hdone).
  fold o in Hsame, Hcalls, Hdone. fold d in Hcalls, Hdone. fold i in Hdone.
  split; [|split; [exact Hsame|split; [by rewrite Hsame|exact Hdone]]].
  intros Hd. destruct (Hcalls Hd) as [rest Hrest].
  by rewrite (issued_cons _ _ _ _ Hrest).
Qed.

Lemma event_world_instance :
  eventInstances (engine event_world) !! "Explosion" = Some 2.
Proof. vm_compute. reflexivity. Qed.

Lemma loadFMODStudioEvent_again_keeps_prior_instance_witness :
  existsb is_createInstance
    (issued event_world
       (Current.loadFMODStudioEvent counting_backend "Explosion" [] event_world))
  = true ∧
  eventInstances
    (engine (final (Current.loadFMODStudioEvent counting_backend "Explosion" []
                      event_world)))
  !! "Explosion" = Some 2.
Proof.
  destruct (loadFMODStudioEvent_again_keeps_prior_instance counting_backend
              event_world "Explosion" [] 2 event_world_instance)
    as (Hnew & _ & Hslot & _).
  split; [apply Hnew; discriminate | exact Hslot].
Defined.

(** C8, as the claim has it, fails: after a second load the slot does not
    hold the instance that load created. *)
Lemma loadFMODStudioEvent_again_does_not_overwrite :
  ¬ (∀ fmod w name params old,
       eventInstances (engine w) !! name = Some old →
       let o := Current.loadFMODStudioEvent fmod name params w in
       let d := out (reply fmod (calls w) (Studio_getEvent name)) in
       let i := out (reply fmod (calls w ++ [Studio_getEvent name])
                       (EventDescription_createInstance d)) in
       eventInstances (engine (final o)) !! name = Some i).
Proof.
  intros H.
  specialize (H counting_backend event_world "Explosion" [] 2 event_world_instance).
  vm_compute in H. discriminate.
Qed.

(** ** Playing a sound that was never loaded *)

(** The struct revision refuses: a notice, and nothing else. *)
Lemma playSound_not_loaded_struct fmod info w :
  sounds (engine w) !! StructRev.uniqueID info = None →
  StructRev.playSound fmod info w =
    Done tt
      (mkWorld (engine w)
         (cout w ++ [Str "Audio Engine: Can't play, sound was not loaded yet from ";
                     Str (StructRev.filePath info); Chr nl])
         (calls w)).
Proof.
  intros H. unfold StructRev.playSound, StructRev.soundLoaded, count. exec.
  by rewrite H.
Qed.

(** The current revision tests the descriptor's flag, and plays when the flag
    is not set, whatever [sounds] holds. *)
Lemma playSound_flag_not_set fmod info w :
  Current.isLoaded info = false →
  ∃ rest,
    calls (final (Current.playSound fmod info w)) =
    calls w ++
    System_playSound (fst (map_index (Current.getUniqueID info) (sounds (engine w))))
      true :: rest.
Proof.
  intros Hld. unfold Current.playSound, Current.set3dChannelPosition.
  rewrite Hld. exec. destruct (map_index _ _) as [s m]. simpl.
  destruct (Current.is3D info), (Current.isLoop info); branch.
  all: rewrite <- ?app_assoc; simpl; by eexists.
Qed.

Lemma playSound_flag_set fmod info w :
  Current.isLoaded info = true →
  Current.playSound fmod info w =
    Done tt
      (mkWorld (engine w)
         (cout w ++ [Str "Audio Engine: Can't play, sound was not loaded yet from ";
                     Str (Current.getFilePath info); Chr nl])
         (calls w)).
Proof. intros Hld. unfold Current.playSound. by rewrite Hld. Qed.

(** C1 at a failing input: on a fresh engine, where nothing is loaded,
    [playSound] of a looping descriptor does not report anything.  It stores a
    null sound under the id, asks the backend to play it, and records the
    channel in [loopsPlaying].  The struct revision, on the same input, prints
    its notice and does nothing else. *)
Theorem playSound_unloaded_descriptor_plays :
  let o := Current.playSound counting_backend ambient fresh_world in
  sounds (engine fresh_world) !! Current.getUniqueID ambient = None ∧
  Current.isLoaded ambient = false ∧
  faulted o = false ∧
  issued fresh_world o =
    [System_playSound NULL true; Channel_setVolume 1 f1_0;
     Channel_setReverbProperties 1 0 f0_0; Channel_setPaused 1 false] ∧
  loopsPlaying (engine fresh_world) !! Current.getUniqueID ambient = None ∧
  loopsPlaying (engine (final o)) !! Current.getUniqueID ambient = Some 1 ∧
  sounds (engine (final o)) !! Current.getUniqueID ambient = Some NULL ∧
  cout (final o) = [] ∧
  StructRev.playSound counting_backend ambient_struct fresh_world =
    Done tt
      (mkWorld fresh_engine
         [Str "Audio Engine: Can't play, sound was not loaded yet from ";
          Str "ambient.ogg"; Chr nl] []).
Proof. vm_compute. by repeat split. Qed.

(** ** Loading a sound twice *)

(** The struct revision looks the id up in [sounds]: a second load is a
    notice and nothing else. *)
Lemma loadSound_present_struct fmod info s w :
  sounds (engine w) !! StructRev.uniqueID info = Some s →
  StructRev.loadSound fmod info w =
    Done tt
      (mkWorld (engine w)
         (cout w ++ [Str (with_nl "Audio Engine: Sound File was already loaded!")])
         (calls w)).
Proof.
  intros H. unfold StructRev.loadSound, StructRev.soundLoaded, count. exec.
  by rewrite H.
Qed.

(** The current revision tests the flag of the descriptor passed in, which
    no call of [loadSound] ever sets for the caller: it creates a sound on
    every such call. *)
Lemma loadSound_flag_not_set fmod info w :
  Current.isLoaded info = false →
  ∃ rest,
    calls (final (Current.loadSound fmod info w)) =
    calls w ++
    System_createSound (Current.getFilePath info)
      (if Current.is3D info then FMOD_3D else FMOD_2D) :: rest.
Proof.
  intros Hld. unfold Current.loadSound. rewrite Hld. exec.
  destruct (Z.eqb _ _); simpl.
  all: destruct (N.eqb _ NULL) eqn:Hs; simpl.
  all: try (rewrite <- ?app_assoc; simpl; by eexists).
  all: destruct (Z.eqb _ _); simpl; destruct (Z.eqb _ _); simpl.
  all: destruct (map_index _ _) as [s m]; simpl; branch.
  all: rewrite <- ?app_assoc; simpl; by eexists.
Qed.

(** C3 at a failing input: [loadSound(ambient)] on the engine that has
    already loaded [ambient] is not a no-op.  No notice is printed, a second
    sound is created in the backend and is stored nowhere; the cache keeps its
    one entry.  The struct revision, on the same input, prints its notice and
    does nothing else. *)
Theorem loadSound_twice_creates_two_sounds :
  let o := Current.loadSound counting_backend ambient loaded_world in
  sounds (engine loaded_world) !! Current.getUniqueID ambient = Some 1 ∧
  faulted o = false ∧
  issued loaded_world o =
    [System_createSound "ambient.ogg" FMOD_2D; Sound_setMode 5 FMOD_LOOP_NORMAL;
     Sound_set3DMinMaxDistance 5 f0_5 f5000_0; Sound_getLength 1] ∧
  length (List.filter is_createSound (calls (final o))) = 2%nat ∧
  sounds (engine (final o)) = sounds (engine loaded_world) ∧
  size (sounds (engine (final o))) = 1%nat ∧
  cout (final o) =
    cout loaded_world ++
    [Str "Audio Engine: Loading Sound from file "; Str "ambient.ogg"; Chr nl] ∧
  StructRev.loadSound counting_backend ambient_struct loaded_world_struct =
    Done tt
      (mkWorld (engine loaded_world_struct)
         (cout loaded_world_struct ++
          [Str (with_nl "Audio Engine: Sound File was already loaded!")])
         (calls loaded_world_struct)).
Proof. vm_compute. by repeat split. Qed.

(** ** Playing and stopping an event that was never loaded *)

(** [stopEvent] tests [count] first: a notice and nothing else. *)
Lemma stopEvent_unknown_name fmod name idx w :
  eventInstances (engine w) !! name = None →
  Current.stopEvent fmod name idx w =
    Done tt
      (mkWorld (engine w)
         (cout w ++ [Str "AudioEngine: Event "; Str name;
                     Str (with_nl " was not in event instance cache, cannot stop ")])
         (calls w)).
Proof. intros H. unfold Current.stopEvent, count. exec. by rewrite H. Qed.

(** [playEvent] indexes the map before it tests [count]: the name is present
    by the time of the test, with a null instance, and [start] is called
    through it. *)
Lemma playEvent_unknown_name fmod name idx w :
  eventInstances (engine w) !! name = None →
  Current.playEvent fmod name idx w =
    Fault (mkWorld
             (set_eventInstances (<[name := NULL]> (eventInstances (engine w)))
                (engine w))
             (cout w) (calls w)).
Proof.
  intros H. unfold Current.playEvent, count. exec.
  rewrite (map_index_absent _ _ H). simpl.
  rewrite lookup_insert_eq. simpl.
  unfold map_index. by rewrite lookup_insert_eq.
Qed.

(** The struct revision faults earlier still, on the null description that
    [eventDescriptions[eventName]] stores. *)
Lemma playEvent_unknown_name_struct fmod name idx w :
  eventDescriptions (engine w) !! name = None →
  StructRev.playEvent fmod name idx w =
    Fault (mkWorld
             (set_eventDescriptions (<[name := NULL]> (eventDescriptions (engine w)))
                (engine w))
             (cout w ++ [Str "Before Playing Event, checking state of Event Description ";
                         Str name; Chr nl])
             (calls w)).
Proof.
  intros H. unfold StructRev.playEvent, StructRev.printEventInfo. exec.
  by rewrite (map_index_absent _ _ H).
Qed.

(** C6 at a failing input: [playEvent("Nonexistent")] on an engine that has
    loaded only ["Explosion"] is not a reported no-op.  It ends in a fault on
    a null instance, prints nothing, and leaves ["Nonexistent"] in
    [eventInstances].  [stopEvent] on the same input prints its notice and
    does nothing else. *)
Theorem playEvent_unknown_name_faults :
  let o := Current.playEvent counting_backend "Nonexistent" 0 event_world in
  eventInstances (engine event_world) !! "Nonexistent" = None ∧
  faulted o = true ∧
  eventInstances (engine (final o)) !! "Nonexistent" = Some NULL ∧
  eventInstances (engine (final o)) ≠ eventInstances (engine event_world) ∧
  cout (final o) = cout event_world ∧
  issued event_world o = [] ∧
  Current.stopEvent counting_backend "Nonexistent" 0 event_world =
    Done tt
      (mkWorld (engine event_world)
         (cout event_world ++
          [Str "AudioEngine: Event "; Str "Nonexistent";
           Str (with_nl " was not in event instance cache, cannot stop ")])
         (calls event_world)).
Proof.
  assert (eventInstances (engine event_world) !! "Nonexistent" = None) as H
    by (vm_compute; reflexivity).
  intros o. subst o.
  rewrite (playEvent_unknown_name _ _ _ _ H), (stopEvent_unknown_name _ _ _ _ H).
  revert H. generalize event_world. intros w H. unfold issued. simpl.
  split; [exact H|]. split; [reflexivity|].
  split; [apply lookup_insert_eq|].
  split; [|split; [reflexivity|split; [apply skipn_length_self|reflexivity]]].
  intros Heq.
  assert (<["Nonexistent":=NULL]> (eventInstances (engine w))
            !! "Nonexistent" = Some NULL) as Hl by apply lookup_insert_eq.
  rewrite Heq, H in Hl. discriminate.
Qed.

(** ** The listener *)

(** The struct revision stores the three vectors as given. *)
Lemma set3DListenerPosition_struct fmod px py pz fx fy fz ux uy uz w :
  let o := StructRev.set3DListenerPosition fmod px py pz fx fy fz ux uy uz w in
  listenerpos (engine (final o)) = mkVec px py pz ∧
  forward (engine (final o)) = mkVec fx fy fz ∧
  up (engine (final o)) = mkVec ux uy uz ∧
  issued w o = [System_set3DListenerAttributes 0 (mkVec px py pz) (mkVec fx fy fz)
                  (mkVec ux uy uz)].
Proof.
  intros o. subst o. unfold StructRev.set3DListenerPosition, issued. exec. branch.
  all: repeat split; apply (skipn_length_app (calls w)).
Qed.

(** The current revision stores the position and the up vector, leaves the
    forward vector as it was, and hands the backend the stored members. *)
Lemma set3DListenerPosition_current fmod px py pz fx fy fz ux uy uz w :
  let o := Current.set3DListenerPosition fmod px py pz fx fy fz ux uy uz w in
  listenerpos (engine (final o)) = mkVec px py pz ∧
  forward (engine (final o)) = forward (engine w) ∧
  up (engine (final o)) = mkVec ux uy uz ∧
  issued w o = [System_set3DListenerAttributes 0 (mkVec px py pz) (forward (engine w))
                  (mkVec ux uy uz)].
Proof.
  intros o. subst o. unfold Current.set3DListenerPosition, issued. exec. branch.
  all: repeat split; apply (skipn_length_app (calls w)).
Qed.

(** The first revision stores the forward and the up vector with their x and
    y components exchanged. *)
Lemma set3DListenerPosition_path fmod px py pz fx fy fz ux uy uz w :
  let o := PathRev.set3DListenerPosition fmod px py pz fx fy fz ux uy uz w in
  listenerpos (engine (final o)) = mkVec px py pz ∧
  forward (engine (final o)) = mkVec fy fx fz ∧
  up (engine (final o)) = mkVec uy ux uz ∧
  issued w o = [System_set3DListenerAttributes 0 (mkVec px py pz) (mkVec fy fx fz)
                  (mkVec uy ux uz)].
Proof.
  intros o. subst o. unfold PathRev.set3DListenerPosition, issued. exec. branch.
  all: repeat split; apply (skipn_length_app (calls w)).
Qed.

(** C7 at a failing input: a listener at (0.5, 0, 0) looking along x with y
    up.  The current revision keeps the forward vector the header gave it,
    (0, 0, 1); the first revision stores forward as (0, 1, 0) and up as
    (1, 0, 0).  Neither reads back what was passed in; the struct revision
    does. *)
Theorem set3DListenerPosition_forward_not_stored :
  let given := mkVec f1_0 f0_0 f0_0 in
  let cur := Current.set3DListenerPosition counting_backend f0_5 f0_0 f0_0
               f1_0 f0_0 f0_0 f0_0 f1_0 f0_0 fresh_world in
  let first := PathRev.set3DListenerPosition counting_backend f0_5 f0_0 f0_0
                 f1_0 f0_0 f0_0 f0_0 f1_0 f0_0 fresh_world in
  let mid := StructRev.set3DListenerPosition counting_backend f0_5 f0_0 f0_0
               f1_0 f0_0 f0_0 f0_0 f1_0 f0_0 fresh_world in
  forward (engine (final cur)) = mkVec f0_0 f0_0 f1_0 ∧
  forward (engine (final cur)) ≠ given ∧
  issued fresh_world cur =
    [System_set3DListenerAttributes 0 (mkVec f0_5 f0_0 f0_0) (mkVec f0_0 f0_0 f1_0)
       (mkVec f0_0 f1_0 f0_0)] ∧
  forward (engine (final first)) = mkVec f0_0 f1_0 f0_0 ∧
  forward (engine (final first)) ≠ given ∧
  up (engine (final first)) = mkVec f1_0 f0_0 f0_0 ∧
  forward (engine (final mid)) = given ∧
  up (engine (final mid)) = mkVec f0_0 f1_0 f0_0.
Proof. vm_compute. by repeat split. Qed.

(** * Further properties of the three revisions *)

(** ** More [std::map] facts *)

Lemma map_insert_absent k v (m : gmap string handle) :
  m !! k = None → map_insert k v m = <[k := v]> m.
Proof. intros H. unfold map_insert. by rewrite H. Qed.

Lemma map_insert_keeps k v k' v' (m : gmap string handle) :
  m !! k = Some v → map_insert k' v' m !! k = Some v.
Proof.
  intros H. unfold map_insert. destruct (m !! k') eqn:E; [done|].
  rewrite lookup_insert_ne; [done|]. intros ->. congruence.
Qed.

Lemma map_index_keeps k v k' (m : gmap string handle) :
  m !! k = Some v → snd (map_index k' m) !! k = Some v.
Proof.
  intros H. unfold map_index. destruct (m !! k') eqn:E; simpl; [done|].
  rewrite lookup_insert_ne; [done|]. intros ->. congruence.
Qed.

Lemma map_index_lookup k (m : gmap string handle) :
  snd (map_index k m) !! k = Some (fst (map_index k m)).
Proof.
  unfold map_index. destruct (m !! k) eqn:E; simpl; [done|].
  apply lookup_insert_eq.
Qed.

Lemma soundIsPlaying_false_iff info e :
  Current.soundIsPlaying info e = false ↔
  Current.isLoop info = false ∨ loopsPlaying e !! Current.getUniqueID info = None.
Proof.
  unfold Current.soundIsPlaying, count.
  destruct (Current.isLoop info), (loopsPlaying e !! _); simpl;
    split; auto; intros [?|?]; congruence.
Qed.

Lemma count_nonzero_lt k (m : gmap string handle) :
  N.ltb 0 (count k m) = true → is_Some (m !! k).
Proof. unfold count. destruct (m !! k); simpl; [by eexists|done]. Qed.

(** ** Playing, stopping and the round trip *)

(** The current [playSound] on a descriptor that passes its guard, with a
    backend that hands back a live channel. *)
Lemma playSound_runs fmod info w :
  Current.isLoaded info = false →
  let s := fst (map_index (Current.getUniqueID info) (sounds (engine w))) in
  let e1 := set_sounds (snd (map_index (Current.getUniqueID info) (sounds (engine w))))
              (engine w) in
  let ch := out (reply fmod (calls w) (System_playSound s true)) in
  ch ≠ NULL →
  ∃ w', Current.playSound fmod info w = Done tt w' ∧
        engine w' =
          (if Current.isLoop info
           then set_loopsPlaying
                  (map_insert (Current.getUniqueID info) ch (loopsPlaying e1)) e1
           else e1) ∧
        calls w' =
          calls w ++
          System_playSound s true ::
          (if Current.is3D info
           then [Channel_set3DAttributes ch
                   (mkVec (fmul (Current.getX info) Current.DISTANCEFACTOR)
                          (fmul (Current.getY info) Current.DISTANCEFACTOR)
                          (fmul (Current.getZ info) Current.DISTANCEFACTOR))
                   (mkVec f0_0 f0_0 f0_0)]
           else []) ++
          [Channel_setVolume ch (Current.getVolume info);
           Channel_setReverbProperties ch 0 (Current.getReverbAmount info);
           Channel_setPaused ch false].
Proof.
  intros Hld s e1 ch Hch. subst s e1 ch. apply N.eqb_neq in Hch.
  unfold Current.playSound, Current.set3dChannelPosition.
  rewrite Hld. exec. destruct (map_index _ _) as [s m]. simpl in *.
  destruct (Current.is3D info), (Current.isLoop info); branch; try discriminate.
  all: eexists; split; [reflexivity|]; simpl; split; [reflexivity|].
  all: rewrite <- ?app_assoc; reflexivity.
Qed.

(** X1: the current [playSound], on a descriptor that passes its guard and a
    backend that hands back a live channel, starts the channel paused, then
    configures it (3D attributes for a 3D sound, volume, reverb), and only
    then un-pauses it; these are all the calls it makes, in this order. *)
Theorem playSound_pauses_configures_unpauses
    (fmod : Backend) (info : Current.SoundInfo) (w : World) :
  Current.isLoaded info = false →
  let s := fst (map_index (Current.getUniqueID info) (sounds (engine w))) in
  let ch := out (reply fmod (calls w) (System_playSound s true)) in
  ch ≠ NULL →
  let o := Current.playSound fmod info w in
  faulted o = false ∧
  issued w o =
    System_playSound s true ::
    (if Current.is3D info
     then [Channel_set3DAttributes ch
             (mkVec (fmul (Current.getX info) Current.DISTANCEFACTOR)
                    (fmul (Current.getY info) Current.DISTANCEFACTOR)
                    (fmul (Current.getZ info) Current.DISTANCEFACTOR))
             (mkVec f0_0 f0_0 f0_0)]
     else []) ++
    [Channel_setVolume ch (Current.getVolume info);
     Channel_setReverbProperties ch 0 (Current.getReverbAmount info);
     Channel_setPaused ch false].
Proof.
  intros Hld s ch Hch o.
  destruct (playSound_runs fmod info w Hld Hch) as (w' & Ho & _ & Hc).
  fold s ch in Hc. subst o. rewrite Ho. split; [reflexivity|].
  exact (issued_done _ _ _ _ Hc).
Qed.

Lemma playSound_pauses_configures_unpauses_witness :
  issued loaded_world (Current.playSound counting_backend ambient loaded_world) =
    [System_playSound 1 true; Channel_setVolume 5 f1_0;
     Channel_setReverbProperties 5 0 f0_0; Channel_setPaused 5 false].
Proof.
  destruct (playSound_pauses_configures_unpauses counting_backend ambient
              loaded_world eq_refl ltac:(discriminate)) as [_ H].
  rewrite H. vm_compute. reflexivity.
Defined.

(** X2: a one-shot is never tracked.  Whatever the backend answers and
    whether the call faults or not, [playSound] of a descriptor that does not
    loop leaves [loopsPlaying] as it was, in the current and in the struct
    revision. *)
Theorem playSound_one_shot_not_tracked :
  (∀ fmod info w,
     Current.isLoop info = false →
     loopsPlaying (engine (final (Current.playSound fmod info w)))
     = loopsPlaying (engine w)) ∧
  (∀ fmod info w,
     StructRev.isLoop info = false →
     loopsPlaying (engine (final (StructRev.playSound fmod info w)))
     = loopsPlaying (engine w)).
Proof.
  split; intros fmod info w Hl.
  - unfold Current.playSound, Current.set3dChannelPosition. rewrite Hl.
    destruct (Current.isLoaded info); simpl; [done|].
    exec. destruct (map_index _ _) as [s m]. simpl.
    destruct (Current.is3D info); by branch.
  - unfold StructRev.playSound, StructRev.set3dChannelPosition. rewrite Hl.
    exec. destruct (StructRev.soundLoaded info (engine w)); simpl; [|done].
    destruct (map_index _ _) as [s m]. simpl.
    destruct (StructRev.is3D info); by branch.
Qed.

Lemma playSound_one_shot_not_tracked_witness :
  loopsPlaying (engine (final (Current.playSound counting_backend explosion playing_world)))
  = loopsPlaying (engine playing_world).
Proof.
  destruct playSound_one_shot_not_tracked as [H _].
  apply H. reflexivity.
Defined.

(** The current [stopSound] on a loop that is playing on a live channel. *)
Lemma stopSound_playing fmod info ch w :
  Current.isLoop info = true →
  loopsPlaying (engine w) !! Current.getUniqueID info = Some ch →
  ch ≠ NULL →
  ∃ w', Current.stopSound fmod info w = Done tt w' ∧
        engine w' =
          set_loopsPlaying (delete (Current.getUniqueID info) (loopsPlaying (engine w)))
            (engine w) ∧
        calls w' = calls w ++ [Channel_stop ch].
Proof.
  intros Hl Hch Hn.
  assert (Current.soundIsPlaying info (engine w) = true) as Hp
    by (apply soundIsPlaying_iff; eauto).
  apply N.eqb_neq in Hn. unfold Current.stopSound. exec.
  rewrite Hp, (map_index_present _ _ _ Hch), set_loopsPlaying_same. simpl.
  rewrite Hn. branch; by eexists.
Qed.

Lemma stopSound_not_playing fmod info w :
  Current.soundIsPlaying info (engine w) = false →
  Current.stopSound fmod info w =
    Done tt
      (mkWorld (engine w)
         (cout w ++
          [Str (with_nl "Audio Engine: Can't stop a looping sound that's not playing!")])
         (calls w)).
Proof. intros Hp. unfold Current.stopSound. exec. by rewrite Hp. Qed.

(** X3: [stopSound] stops exactly the loop it is given.  On a loop playing on
    a live channel it makes one call, [stop] on that channel, and removes the
    entry of that id: the id is no longer in [loopsPlaying], the entries of
    all other ids and the sound cache are as before.  On anything that is not
    a playing loop, an id without an entry or a descriptor that does not loop
    even when its id has one, it prints its notice and does nothing else. *)
Theorem stopSound_stops_one_loop
    (fmod : Backend) (info : Current.SoundInfo) (w : World) :
  let o := Current.stopSound fmod info w in
  (∀ ch,
     Current.isLoop info = true →
     loopsPlaying (engine w) !! Current.getUniqueID info = Some ch →
     ch ≠ NULL →
     faulted o = false ∧
     issued w o = [Channel_stop ch] ∧
     loopsPlaying (engine (final o)) !! Current.getUniqueID info = None ∧
     (∀ k, k ≠ Current.getUniqueID info →
           loopsPlaying (engine (final o)) !! k = loopsPlaying (engine w) !! k) ∧
     sounds (engine (final o)) = sounds (engine w)) ∧
  (Current.isLoop info = false ∨
   loopsPlaying (engine w) !! Current.getUniqueID info = None →
     o = Done tt
           (mkWorld (engine w)
              (cout w ++
               [Str (with_nl
                       "Audio Engine: Can't stop a looping sound that's not playing!")])
              (calls w))).
Proof.
  intros o. split.
  - intros ch Hl Hch Hn.
    destruct (stopSound_playing fmod info ch w Hl Hch Hn) as (w' & Ho & He & Hc).
    subst o. rewrite Ho. simpl. rewrite He. simpl.
    split; [done|]. split; [exact (issued_done _ _ _ _ Hc)|].
    split; [apply lookup_delete_eq|]. split; [|done].
    intros k Hk. by rewrite lookup_delete_ne.
  - intros H. apply stopSound_not_playing. by apply soundIsPlaying_false_iff.
Qed.

Lemma stopSound_stops_one_loop_witness :
  issued playing_world (Current.stopSound counting_backend ambient playing_world)
  = [Channel_stop 5] ∧
  faulted (Current.stopSound counting_backend explosion playing_world) = false.
Proof.
  split.
  - destruct (stopSound_stops_one_loop counting_backend ambient playing_world)
      as [Hplaying _].
    destruct (Hplaying 5 eq_refl playing_world_channel ltac:(discriminate))
      as (_ & Hissued & _).
    exact Hissued.
  - destruct (stopSound_stops_one_loop counting_backend explosion playing_world)
      as [_ Hnot].
    rewrite Hnot; [reflexivity|]. left. reflexivity.
Defined.

(** X4: play, then stop, is a round trip on [loopsPlaying].  For a loop whose
    id has no entry, played by a call that passes the guard on a backend that
    hands back a live channel, [stopSound] after [playSound] stops the very
    channel that [playSound] started and leaves [loopsPlaying] as it was
    before the two calls. *)
Theorem playSound_then_stopSound_round_trip
    (fmod : Backend) (info : Current.SoundInfo) (w : World) :
  Current.isLoop info = true →
  Current.isLoaded info = false →
  loopsPlaying (engine w) !! Current.getUniqueID info = None →
  let s := fst (map_index (Current.getUniqueID info) (sounds (engine w))) in
  let ch := out (reply fmod (calls w) (System_playSound s true)) in
  ch ≠ NULL →
  let o := (Current.playSound fmod info;; Current.stopSound fmod info) w in
  faulted o = false ∧
  loopsPlaying (engine (final o)) = loopsPlaying (engine w) ∧
  last (calls (final o)) = Some (Channel_stop ch).
Proof.
  intros Hl Hld Hnone s ch Hch o.
  destruct (playSound_runs fmod info w Hld Hch) as (w1 & Ho1 & He1 & Hc1).
  fold s ch in He1, Hc1. rewrite Hl in He1.
  assert (loopsPlaying (engine w1) !! Current.getUniqueID info = Some ch) as Hin.
  { rewrite He1. simpl. rewrite (map_insert_absent _ _ _ Hnone).
    apply lookup_insert_eq. }
  destruct (stopSound_playing fmod info ch w1 Hl Hin Hch) as (w2 & Ho2 & He2 & Hc2).
  subst o. unfold bind. rewrite Ho1, Ho2. simpl.
  split; [done|]. split.
  - rewrite He2, He1. simpl. rewrite (map_insert_absent _ _ _ Hnone).
    by rewrite delete_insert_id.
  - rewrite Hc2. apply last_snoc.
Qed.

Lemma playSound_then_stopSound_round_trip_witness :
  loopsPlaying
    (engine (final ((Current.playSound counting_backend ambient;;
                     Current.stopSound counting_backend ambient) loaded_world)))
  = loopsPlaying (engine loaded_world).
Proof.
  assert (loopsPlaying (engine loaded_world) !! Current.getUniqueID ambient = None)
    as Hnone by (vm_compute; reflexivity).
  destruct (playSound_then_stopSound_round_trip counting_backend ambient loaded_world
              eq_refl eq_refl Hnone ltac:(discriminate)) as (_ & H & _).
  exact H.
Defined.

(** ** What the sound operations keep *)

Lemma index_eq proj upd k w :
  index proj upd k w =
    Done (fst (map_index k (proj (engine w))))
      (mkWorld (upd (snd (map_index k (proj (engine w)))) (engine w))
         (cout w) (calls w)).
Proof. unfold index. by destruct (map_index _ _). Qed.

(** As [exec], keeping [operator[]] as the pair it yields. *)
Ltac exec_index :=
  unfold ERRCHECK, ERRCHECK_fn in *;
  unfold bind, ret, get, modify, print, call, invoke in *;
  simpl in *; rewrite ?index_eq; simpl.

(** Run to the end of every path. *)
Ltac run := exec_index; repeat (progress (branch; rewrite ?index_eq; simpl)).

Lemma loadSound_loops fmod info w :
  loopsPlaying (engine (final (Current.loadSound fmod info w)))
  = loopsPlaying (engine w).
Proof.
  unfold Current.loadSound. destruct (Current.isLoaded info); simpl; [done|].
  by run.
Qed.

Lemma updateSoundLoopVolume_loops fmod info v n w :
  loopsPlaying (engine (final (Current.updateSoundLoopVolume fmod info v n w)))
  = loopsPlaying (engine w).
Proof.
  unfold Current.updateSoundLoopVolume. exec.
  destruct (Current.soundIsPlaying info (engine w)) eqn:Hp; simpl; [|done].
  apply soundIsPlaying_iff in Hp as [_ [ch Hch]].
  rewrite (map_index_present _ _ _ Hch). simpl.
  destruct (N.leb n 64); [|destruct (fgt v (Current.getVolume info))]; by branch.
Qed.

Lemma update3DSoundPosition_loops fmod info w :
  loopsPlaying (engine (final (Current.update3DSoundPosition fmod info w)))
  = loopsPlaying (engine w).
Proof.
  unfold Current.update3DSoundPosition, Current.set3dChannelPosition. exec.
  destruct (Current.soundIsPlaying info (engine w)) eqn:Hp; simpl; [|done].
  apply soundIsPlaying_iff in Hp as [_ [ch Hch]].
  rewrite (map_index_present _ _ _ Hch). simpl. by branch.
Qed.

Lemma stopSound_loops_subset fmod info w k ch :
  loopsPlaying (engine (final (Current.stopSound fmod info w))) !! k = Some ch →
  loopsPlaying (engine w) !! k = Some ch.
Proof.
  unfold Current.stopSound. exec.
  destruct (Current.soundIsPlaying info (engine w)) eqn:Hp; simpl; [|done].
  apply soundIsPlaying_iff in Hp as [_ [c Hc]].
  rewrite (map_index_present _ _ _ Hc). simpl. branch; try done.
  all: unfold map_erase; intros H; simpl in H;
    by apply lookup_delete_Some in H as [_ H].
Qed.

Lemma update3DSoundPosition_playing fmod info ch w :
  Current.isLoop info = true →
  loopsPlaying (engine w) !! Current.getUniqueID info = Some ch →
  ch ≠ NULL →
  ∃ w', Current.update3DSoundPosition fmod info w = Done tt w' ∧
        engine w' = engine w ∧
        calls w' =
          calls w ++
          [Channel_set3DAttributes ch
             (mkVec (fmul (Current.getX info) Current.DISTANCEFACTOR)
                    (fmul (Current.getY info) Current.DISTANCEFACTOR)
                    (fmul (Current.getZ info) Current.DISTANCEFACTOR))
             (mkVec f0_0 f0_0 f0_0)].
Proof.
  intros Hl Hch Hn.
  assert (Current.soundIsPlaying info (engine w) = true) as Hp
    by (apply soundIsPlaying_iff; eauto).
  apply N.eqb_neq in Hn.
  unfold Current.update3DSoundPosition, Current.set3dChannelPosition. exec.
  rewrite Hp, (map_index_present _ _ _ Hch), set_loopsPlaying_same. simpl.
  rewrite Hn. branch; by eexists.
Qed.

(** X5: the current sound operations keep [loopsPlaying] free of null
    channels, and on such an engine the three operations that reach into
    [loopsPlaying] never call through a null channel.  If every recorded
    channel is live before [loadSound], [playSound], [stopSound],
    [updateSoundLoopVolume] or [update3DSoundPosition], every recorded channel
    is live after it, for every backend and also when the operation faults;
    and [stopSound], [updateSoundLoopVolume] and [update3DSoundPosition] run to
    their end. *)
Theorem sound_operations_keep_channels_live
    (fmod : Backend) (info : Current.SoundInfo) (v : float) (n : N) (w : World) :
  live_channels (engine w) →
  live_channels (engine (final (Current.loadSound fmod info w))) ∧
  live_channels (engine (final (Current.playSound fmod info w))) ∧
  live_channels (engine (final (Current.stopSound fmod info w))) ∧
  live_channels (engine (final (Current.updateSoundLoopVolume fmod info v n w))) ∧
  live_channels (engine (final (Current.update3DSoundPosition fmod info w))) ∧
  faulted (Current.stopSound fmod info w) = false ∧
  faulted (Current.updateSoundLoopVolume fmod info v n w) = false ∧
  faulted (Current.update3DSoundPosition fmod info w) = false.
Proof.
  intros Hlive. unfold live_channels in *.
  split; [by rewrite loadSound_loops|].
  split; [exact (playSound_records_live_channels fmod info w Hlive)|].
  split; [intros k ch H; apply (Hlive k), (stopSound_loops_subset _ _ _ _ _ H)|].
  split; [by rewrite updateSoundLoopVolume_loops|].
  split; [by rewrite update3DSoundPosition_loops|].
  destruct (Current.soundIsPlaying info (engine w)) eqn:Hp.
  - apply soundIsPlaying_iff in Hp as [Hl [ch Hch]].
    pose proof (Hlive _ _ Hch) as Hn.
    destruct (stopSound_playing fmod info ch w Hl Hch Hn) as (w1 & -> & _).
    destruct (updateSoundLoopVolume_playing fmod w info v n ch Hl Hch Hn)
      as (w2 & -> & _).
    destruct (update3DSoundPosition_playing fmod info ch w Hl Hch Hn)
      as (w3 & -> & _).
    done.
  - rewrite (stopSound_not_playing _ _ _ Hp).
    unfold Current.updateSoundLoopVolume, Current.update3DSoundPosition. exec.
    by rewrite Hp.
Qed.

Lemma sound_operations_keep_channels_live_witness :
  live_channels
    (engine (final (Current.playSound counting_backend ambient loaded_world))) ∧
  faulted (Current.stopSound counting_backend ambient playing_world) = false.
Proof.
  assert (live_channels (engine loaded_world)) as H1.
  { intros k ch H. vm_compute in H. discriminate. }
  assert (live_channels (engine playing_world)) as H2.
  { exact (proj1 (proj2 (sound_operations_keep_channels_live counting_backend
                           ambient f0_0 0 loaded_world H1))). }
  split.
  - exact (proj1 (proj2 (sound_operations_keep_channels_live counting_backend
                           ambient f0_0 0 loaded_world H1))).
  - exact (proj1 (proj2 (proj2 (proj2 (proj2 (proj2
             (sound_operations_keep_channels_live counting_backend
                ambient f0_0 0 playing_world H2))))))).
Defined.

(** X6: no current sound operation evicts or replaces a cached sound.
    Whatever [sounds] holds under an id before [loadSound], [playSound],
    [stopSound], [updateSoundLoopVolume], [update3DSoundPosition] or
    [getSoundLengthInMS], it holds under that id after it, for every backend
    and also when the operation faults. *)
Theorem sound_operations_keep_cached_sounds
    (fmod : Backend) (info : Current.SoundInfo) (v : float) (n : N) (w : World) :
  keeps_sounds (engine w) (engine (final (Current.loadSound fmod info w))) ∧
  keeps_sounds (engine w) (engine (final (Current.playSound fmod info w))) ∧
  keeps_sounds (engine w) (engine (final (Current.stopSound fmod info w))) ∧
  keeps_sounds (engine w)
    (engine (final (Current.updateSoundLoopVolume fmod info v n w))) ∧
  keeps_sounds (engine w) (engine (final (Current.update3DSoundPosition fmod info w))) ∧
  keeps_sounds (engine w) (engine (final (Current.getSoundLengthInMS fmod info w))).
Proof.
  unfold keeps_sounds. repeat split; intros k s Hk.
  - unfold Current.loadSound. destruct (Current.isLoaded info); simpl; [done|].
    run; try done.
    all: by apply map_index_keeps, map_insert_keeps.
  - unfold Current.playSound, Current.set3dChannelPosition.
    destruct (Current.isLoaded info); simpl; [done|].
    destruct (Current.is3D info), (Current.isLoop info); run.
    all: by apply map_index_keeps.
  - unfold Current.stopSound.
    destruct (Current.soundIsPlaying info (engine w)) eqn:Hp; run;
      rewrite Hp; run; done.
  - unfold Current.updateSoundLoopVolume.
    destruct (Current.soundIsPlaying info (engine w)) eqn:Hp; run;
      rewrite Hp; [|done].
    destruct (N.leb n 64); [|destruct (fgt v (Current.getVolume info))]; by run.
  - unfold Current.update3DSoundPosition, Current.set3dChannelPosition.
    destruct (Current.soundIsPlaying info (engine w)) eqn:Hp; run;
      rewrite Hp; run; done.
  - unfold Current.getSoundLengthInMS. run.
    destruct (negb _); run; try done.
    all: by apply map_index_keeps.
Qed.

Lemma sound_operations_keep_cached_sounds_witness :
  sounds (engine (final (Current.playSound counting_backend explosion loaded_world)))
  !! "ambient.ogg" = Some 1.
Proof.
  destruct (sound_operations_keep_cached_sounds counting_backend explosion f0_0 0
              loaded_world) as (_ & Hplay & _).
  apply Hplay. vm_compute. reflexivity.
Defined.

(** X7: a volume update on a sound that is not a playing loop is dropped.
    [updateSoundLoopVolume] then prints its notice, makes no call, leaves the
    engine alone and hands the descriptor back as it was, its stored volume
    included. *)
Theorem updateSoundLoopVolume_not_playing
    (fmod : Backend) (info : Current.SoundInfo) (newVolume : float)
    (fadeSampleLength : N) (w : World) :
  Current.soundIsPlaying info (engine w) = false →
  Current.updateSoundLoopVolume fmod info newVolume fadeSampleLength w =
    Done info
      (mkWorld (engine w)
         (cout w ++
          [Str (with_nl "AudioEngine: Can't update sound loop volume! (It isn't playing or might not be loaded)")])
         (calls w)).
Proof. intros Hp. unfold Current.updateSoundLoopVolume. exec. by rewrite Hp. Qed.

Lemma updateSoundLoopVolume_not_playing_witness :
  ∃ w', Current.updateSoundLoopVolume counting_backend ambient f0_5 128 loaded_world
        = Done ambient w' ∧ calls w' = calls loaded_world.
Proof.
  assert (Current.soundIsPlaying ambient (engine loaded_world) = false) as Hp
    by (vm_compute; reflexivity).
  rewrite (updateSoundLoopVolume_not_playing counting_backend ambient f0_5 128
             loaded_world Hp).
  eexists. split; reflexivity.
Defined.

(** X8: [update3DSoundPosition] moves only a loop that is playing.  On a loop
    playing on a live channel it makes one call, [set3DAttributes] on that
    channel, with the descriptor's coordinates each multiplied by the distance
    factor and a zero velocity, and leaves the engine as it was; otherwise it
    prints its notice and does nothing else. *)
Theorem update3DSoundPosition_moves_playing_loop
    (fmod : Backend) (info : Current.SoundInfo) (w : World) :
  let o := Current.update3DSoundPosition fmod info w in
  (∀ ch,
     Current.isLoop info = true →
     loopsPlaying (engine w) !! Current.getUniqueID info = Some ch →
     ch ≠ NULL →
     faulted o = false ∧ engine (final o) = engine w ∧
     issued w o =
       [Channel_set3DAttributes ch
          (mkVec (fmul (Current.getX info) Current.DISTANCEFACTOR)
                 (fmul (Current.getY info) Current.DISTANCEFACTOR)
                 (fmul (Current.getZ info) Current.DISTANCEFACTOR))
          (mkVec f0_0 f0_0 f0_0)]) ∧
  (Current.soundIsPlaying info (engine w) = false →
     o = Done tt
           (mkWorld (engine w)
              (cout w ++ [Str (with_nl "Audio Engine: Can't update sound position!")])
              (calls w))).
Proof.
  intros o. split.
  - intros ch Hl Hch Hn.
    destruct (update3DSoundPosition_playing fmod info ch w Hl Hch Hn)
      as (w' & Ho & He & Hc).
    subst o. rewrite Ho. simpl.
    split; [done|]. split; [done|]. exact (issued_done _ _ _ _ Hc).
  - intros Hp. subst o. unfold Current.update3DSoundPosition. exec. by rewrite Hp.
Qed.

Lemma update3DSoundPosition_moves_playing_loop_witness :
  issued playing_world
    (Current.update3DSoundPosition counting_backend ambient playing_world)
  = [Channel_set3DAttributes 5 (mkVec f0_0 f0_0 f0_0) (mkVec f0_0 f0_0 f0_0)] ∧
  faulted (Current.update3DSoundPosition counting_backend explosion playing_world)
  = false.
Proof.
  destruct (update3DSoundPosition_moves_playing_loop counting_backend ambient
              playing_world) as [Hplaying _].
  destruct (update3DSoundPosition_moves_playing_loop counting_backend explosion
              playing_world) as [_ Hnot].
  split.
  - destruct (Hplaying 5 eq_refl playing_world_channel ltac:(discriminate))
      as (_ & _ & H).
    rewrite H. vm_compute. reflexivity.
  - rewrite Hnot; reflexivity.
Defined.

(** X9: [getSoundLengthInMS] answers 0 for an id that is not cached, without
    a call and without touching the engine; for an id cached with a live sound
    it asks the backend once and answers its reply as an [unsigned int], again
    leaving the engine as it was. *)
Theorem getSoundLengthInMS_cached_or_zero
    (fmod : Backend) (info : Current.SoundInfo) (w : World) :
  (sounds (engine w) !! Current.getUniqueID info = None →
     Current.getSoundLengthInMS fmod info w = Done 0 w) ∧
  (∀ s,
     sounds (engine w) !! Current.getUniqueID info = Some s → s ≠ NULL →
     ∃ w', Current.getSoundLengthInMS fmod info w =
             Done (out (reply fmod (calls w) (Sound_getLength s)) mod 2 ^ 32) w' ∧
           engine w' = engine w ∧
           calls w' = calls w ++ [Sound_getLength s]).
Proof.
  split.
  - intros H. unfold Current.getSoundLengthInMS, count. exec. by rewrite H.
  - intros s H Hs. apply N.eqb_neq in Hs.
    unfold Current.getSoundLengthInMS, count. exec.
    rewrite H. simpl. rewrite (map_index_present _ _ _ H). simpl. rewrite Hs.
    assert (set_sounds (sounds (engine w)) (engine w) = engine w) as ->
      by (by destruct (engine w)).
    branch; by eexists.
Qed.

Lemma getSoundLengthInMS_cached_or_zero_witness :
  Current.getSoundLengthInMS counting_backend explosion loaded_world
  = Done 0 loaded_world ∧
  ∃ w', Current.getSoundLengthInMS counting_backend ambient loaded_world
        = Done 5 w'.
Proof.
  destruct (getSoundLengthInMS_cached_or_zero counting_backend explosion loaded_world)
    as [Hzero _].
  destruct (getSoundLengthInMS_cached_or_zero counting_backend ambient loaded_world)
    as [_ Hlen].
  split.
  - apply Hzero. vm_compute. reflexivity.
  - assert (sounds (engine loaded_world) !! Current.getUniqueID ambient = Some 1)
      as H by (vm_compute; reflexivity).
    destruct (Hlen 1 H ltac:(discriminate)) as (w' & Ho & _).
    exists w'. rewrite Ho. reflexivity.
Defined.

(** ** Loading sounds *)

Lemma loadSound_struct_caches fmod info w :
  faulted (StructRev.loadSound fmod info w) = false →
  is_Some (sounds (engine (final (StructRev.loadSound fmod info w)))
           !! StructRev.uniqueID info).
Proof.
  unfold StructRev.loadSound. exec.
  destruct (StructRev.soundLoaded info (engine w)) eqn:Hld; simpl.
  - intros _. by apply count_nonzero_lt in Hld.
  - branch; try done.
    all: intros _; apply map_insert_lookup.
Qed.

(** X10: the struct revision loads a sound once.  After a [loadSound] that
    ran to its end the id is cached, and a second [loadSound] of the
    descriptor prints the notice, makes no call and leaves the engine as the
    first call left it; this holds for every backend and every engine. *)
Theorem loadSound_struct_loads_once
    (fmod : Backend) (info : StructRev.SoundInfo) (w : World) :
  let o1 := StructRev.loadSound fmod info w in
  faulted o1 = false →
  StructRev.soundLoaded info (engine (final o1)) = true ∧
  StructRev.loadSound fmod info (final o1) =
    Done tt
      (mkWorld (engine (final o1))
         (cout (final o1) ++
          [Str (with_nl "Audio Engine: Sound File was already loaded!")])
         (calls (final o1))).
Proof.
  intros o1 Hok.
  destruct (loadSound_struct_caches fmod info w Hok) as [s Hs]. fold o1 in Hs.
  split.
  - unfold StructRev.soundLoaded, count. by rewrite Hs.
  - exact (loadSound_present_struct fmod info s (final o1) Hs).
Qed.

Lemma loadSound_struct_loads_once_witness :
  issued loaded_world_struct
    (StructRev.loadSound counting_backend ambient_struct loaded_world_struct) = [].
Proof.
  destruct (loadSound_struct_loads_once counting_backend ambient_struct fresh_world
              eq_refl) as [_ H].
  unfold loaded_world_struct. rewrite H. unfold issued. simpl.
  apply skipn_length_self.
Defined.



(** X12: in the struct revision a channel is recorded before it is used.  For
    a loaded 2D loop whose id has no entry, when the backend hands back a null
    channel, [playSound] stores that null channel in [loopsPlaying] and then
    faults on [setPaused]: the failed call leaves the id registered as
    playing, on a channel that is not live. *)
Theorem playSound_struct_records_null_channel
    (fmod : Backend) (info : StructRev.SoundInfo) (w : World) (s : handle) :
  StructRev.isLoop info = true →
  StructRev.is3D info = false →
  sounds (engine w) !! StructRev.uniqueID info = Some s →
  loopsPlaying (engine w) !! StructRev.uniqueID info = None →
  out (reply fmod (calls w) (System_playSound s true)) = NULL →
  let o := StructRev.playSound fmod info w in
  faulted o = true ∧
  loopsPlaying (engine (final o)) !! StructRev.uniqueID info = Some NULL ∧
  StructRev.soundIsPlaying info (engine (final o)) = true ∧
  ¬ live_channels (engine (final o)).
Proof.
  intros Hl H3 Hs Hnone Hch o. subst o.
  unfold StructRev.playSound, StructRev.soundLoaded, StructRev.soundIsPlaying, count.
  exec. rewrite Hs. simpl. rewrite Hl, H3, (map_index_present _ _ _ Hs). simpl.
  rewrite Hch. simpl.
  destruct (Z.eqb _ _); simpl; rewrite (map_insert_absent _ _ _ Hnone);
    rewrite lookup_insert_eq; simpl.
  all: repeat split; try done.
  all: intros Hlive; apply (Hlive (StructRev.uniqueID info) NULL); [|done].
  all: simpl; apply lookup_insert_eq.
Qed.

Lemma playSound_struct_records_null_channel_witness :
  loopsPlaying
    (engine (final (StructRev.playSound no_channel_backend ambient_struct
                      loaded_world_struct)))
  !! "ambient.ogg" = Some NULL.
Proof.
  assert (sounds (engine loaded_world_struct) !! StructRev.uniqueID ambient_struct
          = Some 1) as Hs by (vm_compute; reflexivity).
  assert (loopsPlaying (engine loaded_world_struct) !! StructRev.uniqueID ambient_struct
          = None) as Hn by (vm_compute; reflexivity).
  destruct (playSound_struct_records_null_channel no_channel_backend ambient_struct
              loaded_world_struct 1 eq_refl eq_refl Hs Hn eq_refl) as (_ & H & _).
  exact H.
Defined.

(** ** Events and banks *)

Lemma for_each_calls {A} (l : list A) (body : A → M unit) (f : A → Call) :
  (∀ a w, ∃ w', body a w = Done tt w' ∧ engine w' = engine w ∧
                calls w' = calls w ++ [f a]) →
  ∀ w, ∃ w', for_each l body w = Done tt w' ∧ engine w' = engine w ∧
             calls w' = calls w ++ map f l.
Proof.
  intros Hbody. induction l as [|a l IH]; intros w; simpl.
  - exists w. by rewrite app_nil_r.
  - unfold bind. destruct (Hbody a w) as (w1 & -> & He1 & Hc1).
    destruct (IH w1) as (w2 & -> & He2 & Hc2).
    exists w2. split; [done|]. split; [congruence|].
    by rewrite Hc2, Hc1, <- app_assoc.
Qed.

Lemma setParameter_runs fmod ln (toks : string * float → list Token) i parVal w :
  i ≠ NULL →
  ∃ w', (print (toks parVal);;
         ERRCHECK fmod ln
           (invoke fmod i
              (EventInstance_setParameterByName i (fst parVal) (snd parVal)));;
         ret tt) w = Done tt w' ∧
        engine w' = engine w ∧
        calls w' =
          calls w ++ [EventInstance_setParameterByName i (fst parVal) (snd parVal)].
Proof.
  intros Hi. apply N.eqb_neq in Hi. exec. rewrite Hi. branch; by eexists.
Qed.

(** The current [loadFMODStudioEvent] when the backend resolves the
    description and creates a live instance. *)
Lemma loadFMODStudioEvent_runs fmod w name params :
  let d := out (reply fmod (calls w) (Studio_getEvent name)) in
  let i := out (reply fmod (calls w ++ [Studio_getEvent name])
                  (EventDescription_createInstance d)) in
  d ≠ NULL → i ≠ NULL →
  ∃ w', Current.loadFMODStudioEvent fmod name params w = Done tt w' ∧
        engine w' =
          set_eventDescriptions
            (map_insert name d (eventDescriptions (engine w)))
            (set_eventInstances (map_insert name i (eventInstances (engine w)))
               (engine w)) ∧
        calls w' =
          calls w ++
          Studio_getEvent name :: EventDescription_createInstance d ::
          map (λ parVal, EventInstance_setParameterByName i (fst parVal) (snd parVal))
            params.
Proof.
  intros d i Hd Hi.
  remember (Current.loadFMODStudioEvent fmod name params w) as o eqn:Ho.
  unfold Current.loadFMODStudioEvent in Ho.
  unfold bind at 1 in Ho. simpl in Ho. unfold bind at 1 in Ho.
  destruct (ERRCHECK_call fmod 148 (Studio_getEvent name)
              (mkWorld (engine w)
                 (cout w ++ [Str "AudioEngine: Loading FMOD Studio Event ";
                             Str name; Chr nl]) (calls w))) as [ts Hts].
  rewrite Hts in Ho. simpl in Ho. fold d in Ho.
  unfold bind at 1 in Ho. rewrite (ERRCHECK_invoke _ _ _ _ _ Hd) in Ho.
  match type of Ho with
  | context [ERRCHECK fmod 151 (call fmod ?c) ?w0] =>
      destruct (ERRCHECK_call fmod 151 c w0) as [ts' Hts']
  end.
  rewrite Hts' in Ho. simpl in Ho. fold i in Ho.
  unfold bind at 1 in Ho.
  match type of Ho with
  | context [for_each params ?body ?w0] =>
      destruct (for_each_calls params body
                  (λ parVal, EventInstance_setParameterByName i (fst parVal)
                               (snd parVal))
                  (λ a w1, setParameter_runs fmod 155
                     (λ parVal, [Str "AudioEngine: Setting Event Instance Parameter ";
                                 Str (fst parVal); Str "to value: ";
                                 Flt (snd parVal); Chr nl]) i a w1 Hi) w0)
        as (w2 & Hfor & He & Hc)
  end.
  rewrite Hfor in Ho. unfold bind, modify in Ho. simpl in Ho.
  eexists. split; [exact Ho|]. simpl in *. rewrite He. simpl.
  split; [done|]. rewrite Hc, <- !app_assoc. reflexivity.
Qed.

(** X13: loading an event.  When the backend resolves the description and
    creates a live instance, [loadFMODStudioEvent] asks for the description,
    creates one instance, sets the given parameters on that instance, one call
    each and in the order given, and records the instance and the description
    under the name unless the name is recorded already. *)
Theorem loadFMODStudioEvent_creates_and_records
    (fmod : Backend) (w : World) (name : string) (params : list (string * float)) :
  let d := out (reply fmod (calls w) (Studio_getEvent name)) in
  let i := out (reply fmod (calls w ++ [Studio_getEvent name])
                  (EventDescription_createInstance d)) in
  d ≠ NULL → i ≠ NULL →
  let o := Current.loadFMODStudioEvent fmod name params w in
  faulted o = false ∧
  issued w o =
    Studio_getEvent name :: EventDescription_createInstance d ::
    map (λ parVal, EventInstance_setParameterByName i (fst parVal) (snd parVal))
      params ∧
  eventInstances (engine (final o)) =
    map_insert name i (eventInstances (engine w)) ∧
  eventDescriptions (engine (final o)) =
    map_insert name d (eventDescriptions (engine w)) ∧
  (eventInstances (engine w) !! name = None →
     eventInstances (engine (final o)) !! name = Some i).
Proof.
  intros d i Hd Hi o.
  destruct (loadFMODStudioEvent_runs fmod w name params Hd Hi)
    as (w' & Ho & He & Hc).
  fold d i in He, Hc. subst o. rewrite Ho. simpl. rewrite He. simpl.
  split; [done|]. split; [exact (issued_done _ _ _ _ Hc)|].
  split; [done|]. split; [done|].
  intros Hnone. rewrite (map_insert_absent _ _ _ Hnone). apply lookup_insert_eq.
Qed.

Lemma loadFMODStudioEvent_creates_and_records_witness :
  issued fresh_world
    (Current.loadFMODStudioEvent counting_backend "Explosion" explosion_params
       fresh_world)
  = [Studio_getEvent "Explosion"; EventDescription_createInstance 1;
     EventInstance_setParameterByName 2 "Size" f0_5;
     EventInstance_setParameterByName 2 "Distance" f1_0].
Proof.
  destruct (loadFMODStudioEvent_creates_and_records counting_backend fresh_world
              "Explosion" explosion_params ltac:(discriminate) ltac:(discriminate))
    as (_ & H & _).
  rewrite H. vm_compute. reflexivity.
Defined.

(** X14: an event that the backend does not resolve.  When [getEvent] hands
    back a null description, [loadFMODStudioEvent] faults on [createInstance]:
    no instance is created and neither registry is changed. *)
Theorem loadFMODStudioEvent_unresolved
    (fmod : Backend) (w : World) (name : string) (params : list (string * float)) :
  out (reply fmod (calls w) (Studio_getEvent name)) = NULL →
  let o := Current.loadFMODStudioEvent fmod name params w in
  faulted o = true ∧
  issued w o = [Studio_getEvent name] ∧
  engine (final o) = engine w.
Proof.
  intros Hd o. subst o. unfold issued, Current.loadFMODStudioEvent. exec.
  destruct (Z.eqb _ _); simpl; rewrite Hd; simpl.
  all: split; [done|]; split; [|done].
  all: apply (skipn_length_app (calls w)).
Qed.

Lemma loadFMODStudioEvent_unresolved_witness :
  faulted (Current.loadFMODStudioEvent no_event_backend "Explosion" explosion_params
             fresh_world) = true.
Proof.
  destruct (loadFMODStudioEvent_unresolved no_event_backend fresh_world "Explosion"
              explosion_params eq_refl) as [H _].
  exact H.
Defined.

Lemma playEvent_known fmod name idx i w :
  eventInstances (engine w) !! name = Some i → i ≠ NULL →
  ∃ w', Current.playEvent fmod name idx w = Done tt w' ∧ engine w' = engine w ∧
        calls w' = calls w ++ [EventInstance_start i].
Proof.
  intros H Hi. apply N.eqb_neq in Hi. unfold Current.playEvent, count. exec.
  rewrite (map_index_present _ _ _ H), set_eventInstances_same. simpl.
  rewrite H. simpl. rewrite (map_index_present _ _ _ H), set_eventInstances_same.
  simpl. rewrite Hi. branch; by eexists.
Qed.

Lemma stopEvent_known fmod name idx i w :
  eventInstances (engine w) !! name = Some i → i ≠ NULL →
  ∃ w', Current.stopEvent fmod name idx w = Done tt w' ∧ engine w' = engine w ∧
        calls w' = calls w ++ [EventInstance_stop i FMOD_STUDIO_STOP_ALLOWFADEOUT].
Proof.
  intros H Hi. apply N.eqb_neq in Hi. unfold Current.stopEvent, count. exec.
  rewrite H. simpl. rewrite (map_index_present _ _ _ H), set_eventInstances_same.
  simpl. rewrite Hi. branch; by eexists.
Qed.

(** X15: load, play, stop.  For a name that is not yet recorded, on a backend
    that resolves the description and creates a live instance, [playEvent]
    after [loadFMODStudioEvent] starts the instance that the load created,
    [stopEvent] after that stops the same instance with the fade-out policy,
    and neither changes the registries the load left. *)
Theorem loadFMODStudioEvent_then_play_then_stop
    (fmod : Backend) (w : World) (name : string) (params : list (string * float))
    (idx : Z) :
  eventInstances (engine w) !! name = None →
  let d := out (reply fmod (calls w) (Studio_getEvent name)) in
  let i := out (reply fmod (calls w ++ [Studio_getEvent name])
                  (EventDescription_createInstance d)) in
  d ≠ NULL → i ≠ NULL →
  let loaded := final (Current.loadFMODStudioEvent fmod name params w) in
  let o := (Current.playEvent fmod name idx;; Current.stopEvent fmod name idx) loaded in
  faulted o = false ∧
  issued loaded o =
    [EventInstance_start i; EventInstance_stop i FMOD_STUDIO_STOP_ALLOWFADEOUT] ∧
  engine (final o) = engine loaded.
Proof.
  intros Hnone d i Hd Hi loaded o.
  destruct (loadFMODStudioEvent_runs fmod w name params Hd Hi)
    as (w1 & Ho1 & He1 & _).
  fold d i in He1.
  assert (loaded = w1) as -> by (subst loaded; by rewrite Ho1).
  assert (eventInstances (engine w1) !! name = Some i) as Hin.
  { rewrite He1. simpl. rewrite (map_insert_absent _ _ _ Hnone).
    apply lookup_insert_eq. }
  destruct (playEvent_known fmod name idx i w1 Hin Hi) as (w2 & Ho2 & He2 & Hc2).
  rewrite <- He2 in Hin.
  destruct (stopEvent_known fmod name idx i w2 Hin Hi) as (w3 & Ho3 & He3 & Hc3).
  subst o. unfold bind. rewrite Ho2, Ho3. simpl.
  split; [done|]. split; [|congruence].
  apply (issued_done tt). by rewrite Hc3, Hc2, <- app_assoc.
Qed.

Lemma loadFMODStudioEvent_then_play_then_stop_witness :
  issued event_world
    ((Current.playEvent counting_backend "Explosion" 0;;
      Current.stopEvent counting_backend "Explosion" 0) event_world)
  = [EventInstance_start 2; EventInstance_stop 2 FMOD_STUDIO_STOP_ALLOWFADEOUT].
Proof.
  destruct (loadFMODStudioEvent_then_play_then_stop counting_backend fresh_world
              "Explosion" [] 0 eq_refl ltac:(discriminate) ltac:(discriminate))
    as (_ & H & _).
  exact H.
Defined.

(** X16: [setFMODEventParamValue] is guarded the way [stopEvent] is.  On a
    name without an entry it prints its notice, makes no call and leaves
    [eventInstances] without the name; on a name recorded with a live instance
    it sets the parameter on that instance, one call, and leaves the engine as
    it was. *)
Theorem setFMODEventParamValue_guarded
    (fmod : Backend) (w : World) (name param : string) (value : float) :
  let o := Current.setFMODEventParamValue fmod name param value w in
  (eventInstances (engine w) !! name = None →
     o = Done tt
           (mkWorld (engine w)
              (cout w ++
               [Str "AudioEngine: Event "; Str name;
                Str (with_nl " was not in event instance cache, can't set param ")])
              (calls w))) ∧
  (∀ i, eventInstances (engine w) !! name = Some i → i ≠ NULL →
        faulted o = false ∧ engine (final o) = engine w ∧
        issued w o = [EventInstance_setParameterByName i param value]).
Proof.
  intros o. subst o. split.
  - intros H. unfold Current.setFMODEventParamValue, count. exec. by rewrite H.
  - intros i H Hi. apply N.eqb_neq in Hi.
    unfold issued, Current.setFMODEventParamValue, count. exec.
    rewrite H. simpl. rewrite (map_index_present _ _ _ H), set_eventInstances_same.
    simpl. rewrite Hi. branch.
    all: repeat split; apply (skipn_length_app (calls w)).
Qed.

Lemma setFMODEventParamValue_guarded_witness :
  issued event_world
    (Current.setFMODEventParamValue counting_backend "Explosion" "Size" f0_5
       event_world)
  = [EventInstance_setParameterByName 2 "Size" f0_5] ∧
  faulted (Current.setFMODEventParamValue counting_backend "Nonexistent" "Size" f0_5
             event_world) = false.
Proof.
  split.
  - destruct (setFMODEventParamValue_guarded counting_backend event_world
                "Explosion" "Size" f0_5) as [_ H].
    destruct (H 2 event_world_instance ltac:(discriminate)) as (_ & _ & Hi).
    exact Hi.
  - destruct (setFMODEventParamValue_guarded counting_backend event_world
                "Nonexistent" "Size" f0_5) as [H _].
    rewrite H; [reflexivity|]. vm_compute. reflexivity.
Defined.

(** X17: banks are not deduplicated.  Every [loadFMODStudioBank] asks the
    backend to load the file, whether the path is recorded or not; for a new
    path the handle is recorded, for a recorded path [soundBanks] is left as
    it was and the handle of the repeated load is dropped. *)
Theorem loadFMODStudioBank_not_deduplicated
    (fmod : Backend) (w : World) (filepath : string) :
  let o := Current.loadFMODStudioBank fmod filepath w in
  let bank := out (reply fmod (calls w) (Studio_loadBankFile filepath)) in
  faulted o = false ∧
  issued w o = [Studio_loadBankFile filepath] ∧
  (soundBanks (engine w) !! filepath = None →
     soundBanks (engine (final o)) = <[filepath := bank]> (soundBanks (engine w))) ∧
  (is_Some (soundBanks (engine w) !! filepath) →
     soundBanks (engine (final o)) = soundBanks (engine w)).
Proof.
  intros o bank. subst o bank. unfold issued, Current.loadFMODStudioBank. exec.
  branch.
  all: split; [done|]; split; [apply (skipn_length_app (calls w))|]; split.
  all: try (intros H; by rewrite (map_insert_absent _ _ _ H)).
  all: intros [old H]; by rewrite (map_insert_present _ _ _ _ H).
Qed.

Lemma loadFMODStudioBank_not_deduplicated_witness :
  let once := final (Current.loadFMODStudioBank counting_backend "Master.bank"
                       fresh_world) in
  let twice := Current.loadFMODStudioBank counting_backend "Master.bank" once in
  issued once twice = [Studio_loadBankFile "Master.bank"] ∧
  soundBanks (engine (final twice)) = soundBanks (engine once).
Proof.
  intros once twice.
  destruct (loadFMODStudioBank_not_deduplicated counting_backend once "Master.bank")
    as (_ & Hissued & _ & Hkept).
  split; [exact Hissued|]. apply Hkept. vm_compute. by eexists.
Defined.

(** ** Mute *)

(** X18: the mute flag follows the backend.  On an engine with a master
    group, [muteAllSounds] and [unmuteAllSound] each make one call, [setMute]
    on the master group with the new state, and set the flag that [isMuted]
    reads to that state; without a master group they fault and the flag keeps
    its value. *)
Theorem mute_flag_follows_backend (fmod : Backend) (w : World) :
  let g := mastergroup (engine w) in
  let on := Current.muteAllSounds fmod w in
  let off := Current.unmuteAllSound fmod w in
  (g ≠ NULL →
     faulted on = false ∧ issued w on = [ChannelGroup_setMute g true] ∧
     (∃ w', Current.isMuted (final on) = Done true w') ∧
     faulted off = false ∧ issued w off = [ChannelGroup_setMute g false] ∧
     (∃ w', Current.isMuted (final off) = Done false w')) ∧
  (g = NULL →
     faulted on = true ∧ faulted off = true ∧
     muted (engine (final on)) = muted (engine w) ∧
     muted (engine (final off)) = muted (engine w)).
Proof.
  intros g on off. subst g on off.
  unfold issued, Current.muteAllSounds, Current.unmuteAllSound, Current.isMuted.
  split.
  - intros Hg. apply N.eqb_neq in Hg. exec. rewrite Hg. branch.
    all: repeat split; try apply (skipn_length_app (calls w)); by eexists.
  - intros Hg. exec. by rewrite Hg.
Qed.

Lemma mute_flag_follows_backend_witness :
  issued fresh_world (Current.muteAllSounds counting_backend fresh_world)
  = [ChannelGroup_setMute 1 true] ∧
  muted (engine (final (Current.muteAllSounds counting_backend fresh_world))) = true.
Proof.
  destruct (mute_flag_follows_backend counting_backend fresh_world) as [H _].
  destruct (H ltac:(discriminate)) as (_ & Hissued & _).
  split; [exact Hissued|]. vm_compute. reflexivity.
Defined.

(** ** The first revision's sound interface *)

Lemma loadSoundFile_caches fmod path loop w :
  faulted (PathRev.loadSoundFile fmod path loop w) = false →
  is_Some (sounds (engine (final (PathRev.loadSoundFile fmod path loop w))) !! path).
Proof.
  unfold PathRev.loadSoundFile. exec.
  destruct (PathRev.soundIsCached path (engine w)) eqn:Hc; simpl.
  - intros _. by apply count_nonzero_lt in Hc.
  - branch; try done.
    all: intros _; apply map_insert_lookup.
Qed.

Lemma load3DSoundFile_caches fmod path loop w :
  faulted (PathRev.load3DSoundFile fmod path loop w) = false →
  is_Some (sounds (engine (final (PathRev.load3DSoundFile fmod path loop w))) !! path).
Proof.
  unfold PathRev.load3DSoundFile. exec.
  destruct (PathRev.soundIsCached path (engine w)) eqn:Hc; simpl.
  - intros _. by apply count_nonzero_lt in Hc.
  - branch; try done.
    all: intros _; apply map_insert_lookup.
Qed.

(** X19: in the first revision the 2D and the 3D loader share one cache, and
    the first load of a path decides.  After a [loadSoundFile] that ran to its
    end, [load3DSoundFile] of the same path prints its notice, makes no call
    and changes nothing, so the sound stays 2D; and the other way round. *)
Theorem first_load_decides_2D_or_3D
    (fmod : Backend) (path : string) (loop loop' : bool) (w : World) :
  (let o := PathRev.loadSoundFile fmod path loop w in
   faulted o = false →
   PathRev.load3DSoundFile fmod path loop' (final o) =
     Done tt
       (mkWorld (engine (final o))
          (cout (final o) ++
           [Str (with_nl "AudioEngine: 3D Sound File was already loaded!")])
          (calls (final o)))) ∧
  (let o := PathRev.load3DSoundFile fmod path loop w in
   faulted o = false →
   PathRev.loadSoundFile fmod path loop' (final o) =
     Done tt
       (mkWorld (engine (final o))
          (cout (final o) ++
           [Str (with_nl "Audio Engine: Sound File was already loaded!")])
          (calls (final o)))).
Proof.
  split; intros o Hok.
  - destruct (loadSoundFile_caches fmod path loop w Hok) as [s Hs]. fold o in Hs.
    unfold PathRev.load3DSoundFile, PathRev.soundIsCached, count. exec.
    by rewrite Hs.
  - destruct (load3DSoundFile_caches fmod path loop w Hok) as [s Hs]. fold o in Hs.
    unfold PathRev.loadSoundFile, PathRev.soundIsCached, count. exec.
    by rewrite Hs.
Qed.

Lemma first_load_decides_2D_or_3D_witness :
  issued loaded_world_path
    (PathRev.load3DSoundFile counting_backend "ambient.ogg" true loaded_world_path)
  = [].
Proof.
  destruct (first_load_decides_2D_or_3D counting_backend "ambient.ogg" true true
              fresh_world) as [H _].
  unfold loaded_world_path. rewrite (H eq_refl). unfold issued. simpl.
  apply skipn_length_self.
Defined.

(** X20: the first revision never records a channel.  None of its five sound
    operations changes [channelMap], for every backend and also when the
    operation faults; so on an engine whose [channelMap] has no entry for a
    path, which is every path on the engine the constructor leaves,
    [update3DSoundPosition] prints its notice and makes no call. *)
Theorem first_revision_never_records_a_channel
    (fmod : Backend) (path : string) (loop : bool) (x y z : float) (w : World) :
  loopsPlaying (engine (final (PathRev.loadSoundFile fmod path loop w)))
  = loopsPlaying (engine w) ∧
  loopsPlaying (engine (final (PathRev.load3DSoundFile fmod path loop w)))
  = loopsPlaying (engine w) ∧
  loopsPlaying (engine (final (PathRev.playSoundFile fmod path w)))
  = loopsPlaying (engine w) ∧
  loopsPlaying (engine (final (PathRev.play3DSoundFile fmod path x y z w)))
  = loopsPlaying (engine w) ∧
  loopsPlaying (engine (final (PathRev.update3DSoundPosition fmod path x y z w)))
  = loopsPlaying (engine w) ∧
  (loopsPlaying (engine w) !! path = None →
     PathRev.update3DSoundPosition fmod path x y z w =
       Done tt
         (mkWorld (engine w)
            (cout w ++
             [Str (with_nl "AudioEngine: Trying to update 3D Sound Position for a sound that wasn't loaded!")])
            (calls w))).
Proof.
  repeat split.
  - unfold PathRev.loadSoundFile.
    destruct (PathRev.soundIsCached path (engine w)) eqn:Hc; run; rewrite Hc; by run.
  - unfold PathRev.load3DSoundFile.
    destruct (PathRev.soundIsCached path (engine w)) eqn:Hc; run; rewrite Hc; by run.
  - unfold PathRev.playSoundFile, PathRev.getSound.
    destruct (PathRev.soundIsCached path (engine w)) eqn:Hc; run; rewrite Hc; by run.
  - unfold PathRev.play3DSoundFile, PathRev.getSound.
    destruct (PathRev.soundIsCached path (engine w)) eqn:Hc; run; rewrite Hc; by run.
  - unfold PathRev.update3DSoundPosition, count. run.
    destruct (loopsPlaying (engine w) !! path) as [ch|] eqn:E; simpl; [|done].
    rewrite index_eq, (map_index_present _ _ _ E). by run.
  - intros H. unfold PathRev.update3DSoundPosition, count. exec. by rewrite H.
Qed.

Lemma first_revision_never_records_a_channel_witness :
  let played := final (PathRev.play3DSoundFile counting_backend "ambient.ogg"
                         f0_5 f1_0 f5000_0 loaded_world_path) in
  issued played
    (PathRev.update3DSoundPosition counting_backend "ambient.ogg" f0_0 f0_0 f0_0 played)
  = [].
Proof.
  intros played.
  destruct (first_revision_never_records_a_channel counting_backend "ambient.ogg"
              true f0_0 f0_0 f0_0 played) as (_ & _ & _ & _ & _ & H).
  rewrite H; [|vm_compute; reflexivity]. unfold issued. simpl.
  apply skipn_length_self.
Defined.

(** X21: how the first revision plays.  On a path that is not cached both
    play functions print their notice and leave the engine as it was: the
    cache is tested before it is indexed, so it gains no entry.  On a cached
    path [playSoundFile] starts the sound un-paused, one call; and
    [play3DSoundFile], when the backend hands back a live channel, starts it
    paused, sets its position to (x times the distance factor, y, z) with zero
    velocity, and un-pauses it. *)
Theorem first_revision_play
    (fmod : Backend) (path : string) (x y z : float) (w : World) :
  (sounds (engine w) !! path = None →
     PathRev.playSoundFile fmod path w =
       Done tt
         (mkWorld (engine w)
            (cout w ++
             [Str (with_nl "AudioEngine: Trying to play a sound that wasn't loaded!")])
            (calls w)) ∧
     PathRev.play3DSoundFile fmod path x y z w =
       Done tt
         (mkWorld (engine w)
            (cout w ++
             [Str (with_nl "AudioEngine: Trying to play a 3DSound that wasn't loaded!")])
            (calls w))) ∧
  (∀ s, sounds (engine w) !! path = Some s →
     let o2 := PathRev.playSoundFile fmod path w in
     let o3 := PathRev.play3DSoundFile fmod path x y z w in
     let ch := out (reply fmod (calls w) (System_playSound s true)) in
     faulted o2 = false ∧ engine (final o2) = engine w ∧
     issued w o2 = [System_playSound s false] ∧
     (ch ≠ NULL →
        faulted o3 = false ∧ engine (final o3) = engine w ∧
        issued w o3 =
          [System_playSound s true;
           Channel_set3DAttributes ch (mkVec (fmul x PathRev.DISTANCEFACTOR) y z)
             (mkVec f0_0 f0_0 f0_0);
           Channel_setPaused ch false])).
Proof.
  split.
  - intros H.
    unfold PathRev.playSoundFile, PathRev.play3DSoundFile, PathRev.soundIsCached,
      count. exec. by rewrite H.
  - intros s H o2 o3 ch. subst o2 o3 ch.
    unfold issued, PathRev.playSoundFile, PathRev.play3DSoundFile, PathRev.getSound,
      PathRev.soundIsCached, count. exec.
    rewrite H. simpl. rewrite (map_index_present _ _ _ H), set_sounds_id. simpl.
    split; [by branch|]. split; [by branch|].
    split; [branch; apply (skipn_length_app (calls w))|].
    intros Hch. apply N.eqb_neq in Hch. rewrite Hch. simpl.
    repeat split. rewrite <- !app_assoc. apply (skipn_length_app (calls w)).
Qed.

Lemma first_revision_play_witness :
  issued loaded_world_path
    (PathRev.play3DSoundFile counting_backend "ambient.ogg" f0_5 f1_0 f5000_0
       loaded_world_path)
  = [System_playSound 1 true;
     Channel_set3DAttributes 3 (mkVec f0_5 f1_0 f5000_0) (mkVec f0_0 f0_0 f0_0);
     Channel_setPaused 3 false] ∧
  faulted (PathRev.playSoundFile counting_backend "explosion.wav" loaded_world_path)
  = false.
Proof.
  split.
  - destruct (first_revision_play counting_backend "ambient.ogg" f0_5 f1_0 f5000_0
                loaded_world_path) as [_ H].
    assert (sounds (engine loaded_world_path) !! "ambient.ogg" = Some 1) as Hs
      by (vm_compute; reflexivity).
    destruct (H 1 Hs) as (_ & _ & _ & H3).
    destruct (H3 ltac:(discriminate)) as (_ & _ & Hissued).
    rewrite Hissued. vm_compute. reflexivity.
  - destruct (first_revision_play counting_backend "explosion.wav" f0_0 f0_0 f0_0
                loaded_world_path) as [H _].
    destruct H as [H2 _]; [vm_compute; reflexivity|]. by rewrite H2.
Defined.

(** ** Result codes and successive fades *)

(** Split on result codes and null tests, bringing the replies of the first
    backend to those of the second as they come up. *)
Ltac branch_outs H :=
  repeat (simpl;
          first [ progress rewrite H
                | match goal with
                  | |- context [Z.eqb ?r FMOD_OK] => destruct (Z.eqb r FMOD_OK)
                  | |- context [N.eqb ?p NULL] => destruct (N.eqb p NULL) eqn:?
                  end ]).

(** X22: a result code is reported and nothing more.  On two backends that
    hand back the same values, whatever result codes they return, the current
    [loadSound], [playSound] and [stopSound] leave the same engine, make the
    same calls and fault or not alike: no error returned by the backend stops
    an operation or keeps a sound or channel from being recorded. *)
Theorem result_codes_are_only_reported
    (f1 f2 : Backend) (info : Current.SoundInfo) (w : World) :
  same_outs f1 f2 →
  (engine (final (Current.loadSound f1 info w))
   = engine (final (Current.loadSound f2 info w)) ∧
   calls (final (Current.loadSound f1 info w))
   = calls (final (Current.loadSound f2 info w)) ∧
   faulted (Current.loadSound f1 info w) = faulted (Current.loadSound f2 info w)) ∧
  (engine (final (Current.playSound f1 info w))
   = engine (final (Current.playSound f2 info w)) ∧
   calls (final (Current.playSound f1 info w))
   = calls (final (Current.playSound f2 info w)) ∧
   faulted (Current.playSound f1 info w) = faulted (Current.playSound f2 info w)) ∧
  (engine (final (Current.stopSound f1 info w))
   = engine (final (Current.stopSound f2 info w)) ∧
   calls (final (Current.stopSound f1 info w))
   = calls (final (Current.stopSound f2 info w)) ∧
   faulted (Current.stopSound f1 info w) = faulted (Current.stopSound f2 info w)).
Proof.
  intros Hout. unfold same_outs in Hout. split; [|split].
  - unfold Current.loadSound. destruct (Current.isLoaded info); simpl; [done|].
    exec. unfold map_index.
    split; [|split]; branch_outs Hout;
      repeat (destruct (_ !! _); simpl; branch_outs Hout); done.
  - unfold Current.playSound, Current.set3dChannelPosition.
    destruct (Current.isLoaded info); simpl; [done|].
    exec. destruct (map_index _ _) as [s m]. simpl.
    destruct (Current.is3D info), (Current.isLoop info);
      (split; [|split]); branch_outs Hout; done.
  - unfold Current.stopSound. exec.
    destruct (Current.soundIsPlaying info (engine w)); simpl; [|done].
    destruct (map_index _ _) as [s m]. simpl.
    split; [|split]; branch_outs Hout; done.
Qed.

Lemma result_codes_are_only_reported_witness :
  sounds (engine (final (Current.loadSound failing_backend ambient fresh_world)))
  = sounds (engine loaded_world).
Proof.
  assert (same_outs failing_backend counting_backend) as H by (intros past c; reflexivity).
  destruct (result_codes_are_only_reported failing_backend counting_backend ambient
              fresh_world H) as ((He & _) & _).
  unfold loaded_world. by rewrite He.
Defined.

(** X23: successive fades chain.  On a loop playing on a live channel, after
    a volume update to [v1], a long fade to [v2] made with the descriptor the
    first update left starts from [v1]: its first fade point carries [v1], and
    it ramps up, to 1.0, exactly when [v2 > v1]. *)
Theorem successive_fades_chain
    (fmod : Backend) (w : World) (info : Current.SoundInfo) (v1 v2 : float)
    (n1 n2 : N) (ch : handle) :
  Current.isLoop info = true →
  loopsPlaying (engine w) !! Current.getUniqueID info = Some ch →
  ch ≠ NULL →
  64 < n2 →
  let o1 := Current.updateSoundLoopVolume fmod info v1 n1 w in
  let info1 := Current.setVolume v1 info in
  let o2 := Current.updateSoundLoopVolume fmod info1 v2 n2 (final o1) in
  let t := wrap64 (out (reply fmod (calls (final o1)) (Channel_getDSPClock ch))) in
  (∃ w1, o1 = Done info1 w1) ∧
  faulted o2 = false ∧
  fadePoints (issued (final o1) o2) =
    [(ch, t, v1); (ch, wrap64 (t + n2), if fgt v2 v1 then f1_0 else v2)].
Proof.
  intros Hl Hch Hn Hgt o1 info1 o2 t.
  destruct (updateSoundLoopVolume_playing fmod w info v1 n1 ch Hl Hch Hn)
    as (w1 & Ho1 & He1 & _).
  fold o1 info1 in Ho1.
  assert (final o1 = w1) as Hf by (by rewrite Ho1).
  subst o2 t. rewrite Hf. rewrite <- He1 in Hch.
  destruct (updateSoundLoopVolume_playing fmod w1 info1 v2 n2 ch Hl Hch Hn)
    as (w2 & Ho2 & _ & Hc2).
  apply N.leb_gt in Hgt. rewrite Hgt in Hc2.
  split; [by exists w1|]. rewrite Ho2. split; [done|].
  rewrite (issued_done _ _ _ _ Hc2). simpl.
  by destruct (fgt v2 v1).
Qed.

Lemma successive_fades_chain_witness :
  fadePoints
    (issued
       (final (Current.updateSoundLoopVolume counting_backend ambient f0_5 0
                 playing_world))
       (Current.updateSoundLoopVolume counting_backend
          (Current.setVolume f0_5 ambient) f1_0 128
          (final (Current.updateSoundLoopVolume counting_backend ambient f0_5 0
                    playing_world))))
  = [(5, 10, f0_5); (5, 138, f1_0)].
Proof.
  destruct (successive_fades_chain counting_backend playing_world ambient f0_5 f1_0
              0 128 5 eq_refl playing_world_channel ltac:(discriminate) eq_refl)
    as (_ & _ & H).
  rewrite H. vm_compute. reflexivity.
Defined.

(** ** The listener in the struct revision *)

(** X24: in the struct revision the listener pose is what the last call
    passed.  After two calls of [set3DListenerPosition] the three vectors read
    back as the second call gave them, component by component, the second call
    hands exactly those vectors to the backend, and the maps and the mute flag
    are as before the two calls. *)
Theorem set3DListenerPosition_struct_last_call_wins
    (fmod : Backend) (p f u p' f' u' : FMOD_VECTOR) (w : World) :
  let first := final (StructRev.set3DListenerPosition fmod
                        (vx p) (vy p) (vz p) (vx f) (vy f) (vz f)
                        (vx u) (vy u) (vz u) w) in
  let o := StructRev.set3DListenerPosition fmod
             (vx p') (vy p') (vz p') (vx f') (vy f') (vz f')
             (vx u') (vy u') (vz u') first in
  faulted o = false ∧
  listenerpos (engine (final o)) = p' ∧
  forward (engine (final o)) = f' ∧
  up (engine (final o)) = u' ∧
  issued first o = [System_set3DListenerAttributes 0 p' f' u'] ∧
  sounds (engine (final o)) = sounds (engine w) ∧
  loopsPlaying (engine (final o)) = loopsPlaying (engine w) ∧
  eventInstances (engine (final o)) = eventInstances (engine w) ∧
  muted (engine (final o)) = muted (engine w).
Proof.
  intros first o. subst first o. destruct p', f', u'.
  unfold issued, StructRev.set3DListenerPosition. exec. branch.
  all: repeat split; try done.
  all: match goal with
       | |- skipn _ (?l ++ _) = _ => apply (skipn_length_app l)
       end.
Qed.
